(** * pdns-nodesdk: the resource modules over a stubbed transport

    A shallow embedding of the resource modules of the PowerDNS client
    (src/api/*.ts): every method builds a path from its arguments and hands
    it to one verb of the [ApiClient].  The client itself is the parameter
    of the development, exactly as in the unit tests, where it is a mock
    that records its calls and answers with a prepared outcome. *)

From Stdlib Require Import List NArith ZArith String Ascii Bool Lia DecimalString DecimalPos DecimalN DecimalZ.
Import ListNotations.
Open Scope N_scope.
Set Warnings "-register-all".

(* ================================================================= *)
(** ** Strings *)

(** An ECMAScript string is a sequence of 16-bit code units.  A code unit is
    kept as an [N]; the values of interest are below [0x10000]. *)
Definition CodeUnit := N.
Definition JsString := list CodeUnit.

(** A string literal of the source (ASCII text). *)
Definition js (s : string) : JsString :=
  map N_of_ascii (list_ascii_of_string s).

(** A Number of ECMAScript is a double, and the one thing the modules do
    with a number is to print it, with [Number::toString].  An integer of
    magnitude up to 2^53 - 1 is printed as its decimal digits, after ["-"]
    when it is negative; it is kept by its value.  Any other number (a
    fraction, a larger magnitude, [NaN], an infinity) is kept by the text
    [Number::toString] gives for it, such as ["1.5"], ["1e+21"] or
    ["NaN"]. *)
Definition MAX_SAFE_INTEGER : Z := 9007199254740991%Z.

Inductive Number : Type :=
| Integer (z : Z) (safe : (Z.abs z <=? MAX_SAFE_INTEGER)%Z = true)
| OtherNumber (text : string).

Definition Number_toString (n : Number) : JsString :=
  match n with
  | Integer z _ => js (NilZero.string_of_int (Z.to_int z))
  | OtherNumber text => js text
  end.

(** [ToString] of a boolean inside a template literal. *)
Definition Boolean_toString (b : bool) : JsString :=
  if b then js "true" else js "false".

(** [Array.prototype.join]. *)
Fixpoint join (sep : JsString) (parts : list JsString) : JsString :=
  match parts with
  | [] => []
  | [p] => p
  | p :: rest => p ++ sep ++ join sep rest
  end.

(** *** Surrogates and UTF-8 *)

Definition is_lead (c : CodeUnit) : bool := (0xD800 <=? c) && (c <=? 0xDBFF).
Definition is_trail (c : CodeUnit) : bool := (0xDC00 <=? c) && (c <=? 0xDFFF).

(** The code point of a surrogate pair. *)
Definition pair_code_point (lead trail : CodeUnit) : N :=
  (lead - 0xD800) * 0x400 + (trail - 0xDC00) + 0x10000.

(** The UTF-8 octets of a code point. *)
Definition utf8_encode (cp : N) : list N :=
  if cp <? 0x80 then [cp]
  else if cp <? 0x800 then
    [0xC0 + cp / 0x40; 0x80 + cp mod 0x40]
  else if cp <? 0x10000 then
    [0xE0 + cp / 0x1000; 0x80 + (cp / 0x40) mod 0x40; 0x80 + cp mod 0x40]
  else
    [0xF0 + cp / 0x40000; 0x80 + (cp / 0x1000) mod 0x40;
     0x80 + (cp / 0x40) mod 0x40; 0x80 + cp mod 0x40].

Definition hex_digit (n : N) : CodeUnit :=
  if n <? 10 then 48 + n else 55 + n.

(** One octet as ["%"] and two upper-case hexadecimal digits. *)
Definition percent_byte (b : N) : JsString :=
  [37; hex_digit (b / 16); hex_digit (b mod 16)].

Definition is_alnum (c : CodeUnit) : bool :=
  ((48 <=? c) && (c <=? 57)) || ((65 <=? c) && (c <=? 90))
  || ((97 <=? c) && (c <=? 122)).

Definition one_of (chars : string) (c : CodeUnit) : bool :=
  existsb (N.eqb c) (js chars).

(** *** encodeURIComponent *)

(** The characters [encodeURIComponent] leaves alone: letters, digits and
    [- _ . ! ~ * ' ( )]. *)
Definition uriUnescaped (c : CodeUnit) : bool :=
  is_alnum c || one_of "-_.!~*'()" c.

(** The abstract operation [Encode] of ECMAScript: a code unit of the
    unescaped set is copied; any other code point is replaced by the escapes
    of its UTF-8 octets; an unpaired surrogate raises [URIError], here
    [None]. *)
Fixpoint Encode (unescapedSet : CodeUnit -> bool) (s : JsString)
  : option JsString :=
  match s with
  | [] => Some []
  | c :: rest =>
    if unescapedSet c then option_map (cons c) (Encode unescapedSet rest)
    else if is_lead c then
      match rest with
      | d :: rest' =>
        if is_trail d then
          option_map (app (flat_map percent_byte
                             (utf8_encode (pair_code_point c d))))
                     (Encode unescapedSet rest')
        else None
      | [] => None
      end
    else if is_trail c then None
    else option_map (app (flat_map percent_byte (utf8_encode c)))
                    (Encode unescapedSet rest)
  end.

Definition encodeURIComponent (s : JsString) : option JsString :=
  Encode uriUnescaped s.

(** *** URLSearchParams *)

(** Conversion to a [USVString]: the scalar values of the string, an
    unpaired surrogate replaced by U+FFFD. *)
Fixpoint toUSVString (s : JsString) : list N :=
  match s with
  | [] => []
  | c :: rest =>
    if is_lead c then
      match rest with
      | d :: rest' =>
        if is_trail d then pair_code_point c d :: toUSVString rest'
        else 0xFFFD :: toUSVString rest
      | [] => [0xFFFD]
      end
    else if is_trail c then 0xFFFD :: toUSVString rest
    else c :: toUSVString rest
  end.

(** The bytes outside the application/x-www-form-urlencoded percent-encode
    set: letters, digits and [* - . _]. *)
Definition urlencoded_safe (b : N) : bool :=
  is_alnum b || one_of "*-._" b.

(** Percent-encode after encoding, with space as plus, one octet. *)
Definition urlencoded_byte (b : N) : JsString :=
  if b =? 0x20 then [0x2B]
  else if urlencoded_safe b then [b]
  else percent_byte b.

Definition urlencoded_string (s : JsString) : JsString :=
  flat_map urlencoded_byte (flat_map utf8_encode (toUSVString s)).

(** The application/x-www-form-urlencoded serializer over the list of
    name-value pairs of a [URLSearchParams] object. *)
Definition urlencoded_serialize (tuples : list (JsString * JsString))
  : JsString :=
  fold_left
    (fun output '(name, value) =>
       (match output with [] => [] | _ => output ++ js "&" end)
       ++ urlencoded_string name ++ js "=" ++ urlencoded_string value)
    tuples [].

(** The code units of a string are 16-bit. *)
Definition code_units (s : JsString) : Prop := Forall (fun c => c < 0x10000) s.

(** [String.prototype.isWellFormed]: no unpaired surrogate. *)
Fixpoint isWellFormed (s : JsString) : bool :=
  match s with
  | [] => true
  | c :: rest =>
    if is_lead c then
      match rest with
      | d :: rest' => is_trail d && isWellFormed rest'
      | [] => false
      end
    else negb (is_trail c) && isWellFormed rest
  end.

(* ================================================================= *)
(** ** Values, exceptions and the transport *)

(** The values that travel as request bodies and as decoded responses. *)
Inductive Value : Type :=
| VUndefined
| VNull
| VBoolean (b : bool)
| VNumber (n : Z)
| VString (s : JsString)
| VArray (items : list Value)
| VObject (fields : list (JsString * Value)).

(** What a promise can be rejected with: the [URIError] that
    [encodeURIComponent] raises, or whatever value the transport threw. *)
Inductive Exception : Type :=
| URIError
| Thrown (v : Value).

Inductive Settled (A : Type) : Type :=
| Fulfilled (a : A)
| Rejected (e : Exception).
Arguments Fulfilled {A} a.
Arguments Rejected {A} e.

Inductive Verb : Type := GET | POST | PUT | PATCH | DELETE.

(** One call of a method of the client: the verb, the path, and the body
    argument when the method was given one. *)
Record Request : Type := mkRequest {
  req_verb : Verb;
  req_path : JsString;
  req_body : option Value
}.

(** The calls made so far with the way each one settled, as a mock keeps
    them. *)
Definition Log := list (Request * Settled Value).

(** The stubbed transport: how a call settles, given the calls before it. *)
Definition Transport := Log -> Request -> Settled Value.

(** Asynchronous computations over the transport. *)
Definition Async (A : Type) : Type := Transport -> Log -> Log * Settled A.

Definition ret {A} (a : A) : Async A :=
  fun _ log => (log, Fulfilled a).

Definition throw {A} (e : Exception) : Async A :=
  fun _ log => (log, Rejected e).

Definition bind {A B} (m : Async A) (k : A -> Async B) : Async B :=
  fun t log =>
    match m t log with
    | (log', Fulfilled a) => k a t log'
    | (log', Rejected e) => (log', Rejected e)
    end.

Notation "x <- m ;; k" := (bind m (fun x => k))
  (at level 61, m at next level, right associativity).

(** The transport performs one call and the mock records it. *)
Definition send (r : Request) : Async Value :=
  fun t log => let outcome := t log r in (log ++ [(r, outcome)], outcome).

(** [return p] in an [async] function, for a promise [p]: the promise of
    the function settles the way [p] does. *)
Definition async_return {A} (p : Async A) : Async A :=
  a <- p ;; ret a.

Definition run {A} (m : Async A) (t : Transport) : Log * Settled A :=
  m t [].

Definition calls {A} (m : Async A) (t : Transport) : list Request :=
  map fst (fst (run m t)).

Definition outcome {A} (m : Async A) (t : Transport) : Settled A :=
  snd (run m t).

(** The five methods of the client (src/utils/ApiClient). *)
Module ApiClient.
Definition get (path : JsString) : Async Value :=
  send (mkRequest GET path None).
Definition post (path : JsString) (body : Value) : Async Value :=
  send (mkRequest POST path (Some body)).
Definition put (path : JsString) (body : Value) : Async Value :=
  send (mkRequest PUT path (Some body)).
Definition patch (path : JsString) (body : Value) : Async Value :=
  send (mkRequest PATCH path (Some body)).
Definition delete (path : JsString) : Async Value :=
  send (mkRequest DELETE path None).
End ApiClient.

(* ================================================================= *)
(** ** The resource modules *)

Module Servers.
Definition listServers : Async Value :=
  async_return (ApiClient.get (js "/servers")).

Definition getServer (serverId : JsString) : Async Value :=
  async_return (ApiClient.get (js "/servers/" ++ serverId)).
End Servers.

Module Zones.
Definition listZones (serverId : JsString) : Async Value :=
  async_return (ApiClient.get (js "/servers/" ++ serverId ++ js "/zones")).

Definition getZone (serverId zoneId : JsString) : Async Value :=
  async_return
    (ApiClient.get (js "/servers/" ++ serverId ++ js "/zones/" ++ zoneId)).

Definition createZone (serverId : JsString) (zoneData : Value)
  : Async Value :=
  async_return
    (ApiClient.post (js "/servers/" ++ serverId ++ js "/zones") zoneData).

Definition deleteZone (serverId zoneId : JsString) : Async Value :=
  async_return
    (ApiClient.delete
       (js "/servers/" ++ serverId ++ js "/zones/" ++ zoneId)).

Definition updateZoneRRsets (serverId zoneId : JsString)
           (rrsetData : Value) : Async Value :=
  async_return
    (ApiClient.patch
       (js "/servers/" ++ serverId ++ js "/zones/" ++ zoneId) rrsetData).

Definition modifyZone (serverId zoneId : JsString) (zoneData : Value)
  : Async Value :=
  async_return
    (ApiClient.put
       (js "/servers/" ++ serverId ++ js "/zones/" ++ zoneId) zoneData).

Definition retrieveSlaveZone (serverId zoneId : JsString) (body : Value)
  : Async Value :=
  async_return
    (ApiClient.put
       (js "/servers/" ++ serverId ++ js "/zones/" ++ zoneId
        ++ js "/axfr-retrieve") body).

Definition sendNotify (serverId zoneId : JsString) (body : Value)
  : Async Value :=
  async_return
    (ApiClient.put
       (js "/servers/" ++ serverId ++ js "/zones/" ++ zoneId
        ++ js "/notify") body).

Definition exportZone (serverId zoneId : JsString) : Async Value :=
  async_return
    (ApiClient.get
       (js "/servers/" ++ serverId ++ js "/zones/" ++ zoneId
        ++ js "/export")).

Definition rectifyZone (serverId zoneId : JsString) (body : Value)
  : Async Value :=
  async_return
    (ApiClient.put
       (js "/servers/" ++ serverId ++ js "/zones/" ++ zoneId
        ++ js "/rectify") body).
End Zones.

Module Cryptokeys.
Definition listKeys (serverId zoneId : JsString) : Async Value :=
  async_return
    (ApiClient.get
       (js "/servers/" ++ serverId ++ js "/zones/" ++ zoneId
        ++ js "/cryptokeys")).

Definition createKey (serverId zoneId : JsString) (keyData : Value)
  : Async Value :=
  async_return
    (ApiClient.post
       (js "/servers/" ++ serverId ++ js "/zones/" ++ zoneId
        ++ js "/cryptokeys") keyData).

Definition getKey (serverId zoneId : JsString) (keyId : Number)
  : Async Value :=
  async_return
    (ApiClient.get
       (js "/servers/" ++ serverId ++ js "/zones/" ++ zoneId
        ++ js "/cryptokeys/" ++ Number_toString keyId)).

Definition updateKey (serverId zoneId : JsString) (keyId : Number)
           (keyData : Value) : Async Value :=
  async_return
    (ApiClient.put
       (js "/servers/" ++ serverId ++ js "/zones/" ++ zoneId
        ++ js "/cryptokeys/" ++ Number_toString keyId) keyData).

Definition deleteKey (serverId zoneId : JsString) (keyId : Number)
  : Async Value :=
  async_return
    (ApiClient.delete
       (js "/servers/" ++ serverId ++ js "/zones/" ++ zoneId
        ++ js "/cryptokeys/" ++ Number_toString keyId)).
End Cryptokeys.

Module Metadata.
Definition listMetadata (serverId zoneId : JsString) : Async Value :=
  async_return
    (ApiClient.get
       (js "/servers/" ++ serverId ++ js "/zones/" ++ zoneId
        ++ js "/metadata")).

Definition createMetadata (serverId zoneId : JsString)
           (metadataEntries : Value) : Async Value :=
  async_return
    (ApiClient.post
       (js "/servers/" ++ serverId ++ js "/zones/" ++ zoneId
        ++ js "/metadata") metadataEntries).

Definition getMetadata (serverId zoneId metadataKind : JsString)
  : Async Value :=
  async_return
    (ApiClient.get
       (js "/servers/" ++ serverId ++ js "/zones/" ++ zoneId
        ++ js "/metadata/" ++ metadataKind)).

(** [metadataValues] is an [Array<string>]; it is handed to [put] as it
    is. *)
Definition updateMetadata (serverId zoneId metadataKind : JsString)
           (metadataValues : list JsString) : Async Value :=
  async_return
    (ApiClient.put
       (js "/servers/" ++ serverId ++ js "/zones/" ++ zoneId
        ++ js "/metadata/" ++ metadataKind)
       (VArray (map VString metadataValues))).

Definition deleteMetadata (serverId zoneId metadataKind : JsString)
  : Async Value :=
  async_return
    (ApiClient.delete
       (js "/servers/" ++ serverId ++ js "/zones/" ++ zoneId
        ++ js "/metadata/" ++ metadataKind)).
End Metadata.

Module TSIGKeys.
Definition listTSIGKeys (serverId : JsString) : Async Value :=
  async_return
    (ApiClient.get (js "/servers/" ++ serverId ++ js "/tsigkeys")).

Definition createTSIGKey (serverId : JsString) (keyData : Value)
  : Async Value :=
  async_return
    (ApiClient.post (js "/servers/" ++ serverId ++ js "/tsigkeys") keyData).

Definition getTSIGKey (serverId tsigKeyId : JsString) : Async Value :=
  async_return
    (ApiClient.get
       (js "/servers/" ++ serverId ++ js "/tsigkeys/" ++ tsigKeyId)).

Definition updateTSIGKey (serverId tsigKeyId : JsString) (keyData : Value)
  : Async Value :=
  async_return
    (ApiClient.put
       (js "/servers/" ++ serverId ++ js "/tsigkeys/" ++ tsigKeyId)
       keyData).

Definition deleteTSIGKey (serverId tsigKeyId : JsString) : Async Value :=
  async_return
    (ApiClient.delete
       (js "/servers/" ++ serverId ++ js "/tsigkeys/" ++ tsigKeyId)).
End TSIGKeys.

Module Autoprimaries.
Definition listAutoprimaries (serverId : JsString) : Async Value :=
  async_return
    (ApiClient.get (js "/servers/" ++ serverId ++ js "/autoprimaries")).

Definition addAutoprimary (serverId : JsString) (autoprimaryData : Value)
  : Async Value :=
  async_return
    (ApiClient.post (js "/servers/" ++ serverId ++ js "/autoprimaries")
                    autoprimaryData).

Definition deleteAutoprimary (serverId ip nameserver : JsString)
  : Async Value :=
  async_return
    (ApiClient.delete
       (js "/servers/" ++ serverId ++ js "/autoprimaries/" ++ ip
        ++ js "/" ++ nameserver)).
End Autoprimaries.

Module Searching.
(** The values of the [objectType] parameter. *)
Inductive ObjectType : Type := all | zone | record | comment.

Definition ObjectType_string (o : ObjectType) : JsString :=
  match o with
  | all => js "all"
  | zone => js "zone"
  | record => js "record"
  | comment => js "comment"
  end.

(** [maxResults] and [objectType] have default values, used when the
    argument is left out. *)
Definition searchData (serverId query : JsString)
           (maxResults : option Number) (objectType : option ObjectType)
  : Async Value :=
  let maxResults :=
    match maxResults with Some n => n | None => Integer 100 eq_refl end in
  let objectType := match objectType with Some o => o | None => all end in
  let params :=
    [(js "q", query);
     (js "max", Number_toString maxResults);
     (js "object_type", ObjectType_string objectType)] in
  async_return
    (ApiClient.get
       (js "/servers/" ++ serverId ++ js "/search-data?"
        ++ urlencoded_serialize params)).
End Searching.

Module Statistics.
(** The optional [options] argument; a field that is left out is
    [undefined]. *)
Record Options : Type := mkOptions {
  statistic : option JsString;
  includerings : option bool
}.

(** [ToBoolean] of [options?.statistic]: [undefined] and the empty string
    are falsy. *)
Definition truthy (s : option JsString) : bool :=
  match s with
  | Some (_ :: _) => true
  | _ => false
  end.

Definition getStatistics (serverId : JsString) (options : option Options)
  : Async Value :=
  let statistic' := match options with Some o => statistic o | None => None end in
  let includerings' :=
    match options with Some o => includerings o | None => None end in
  let queryParams : list JsString := [] in
  let queryParams :=
    if truthy statistic' then
      queryParams
        ++ [js "statistic="
            ++ match statistic' with Some s => s | None => [] end]
    else queryParams in
  let queryParams :=
    match includerings' with
    | Some b => queryParams ++ [js "includerings=" ++ Boolean_toString b]
    | None => queryParams
    end in
  let queryString :=
    if Nat.ltb 0 (List.length queryParams)
    then js "?" ++ join (js "&") queryParams
    else js "" in
  async_return
    (ApiClient.get
       (js "/servers/" ++ serverId ++ js "/statistics" ++ queryString)).
End Statistics.

Module Cache.
(** [encodeURIComponent] is evaluated first; when it raises, the promise
    of the method is rejected and no call is made. *)
Definition flushCache (serverId domain : JsString) : Async Value :=
  match encodeURIComponent domain with
  | None => throw URIError
  | Some encoded =>
    let query := js "domain=" ++ encoded in
    async_return
      (ApiClient.put
         (js "/servers/" ++ serverId ++ js "/cache/flush?" ++ query)
         VNull)
  end.
End Cache.

(** *** Every method of every module *)

(** A method of a resource module together with its arguments. *)
Inductive Invocation : Type :=
| listServers
| getServer (serverId : JsString)
| listZones (serverId : JsString)
| getZone (serverId zoneId : JsString)
| createZone (serverId : JsString) (zoneData : Value)
| deleteZone (serverId zoneId : JsString)
| updateZoneRRsets (serverId zoneId : JsString) (rrsetData : Value)
| modifyZone (serverId zoneId : JsString) (zoneData : Value)
| retrieveSlaveZone (serverId zoneId : JsString) (body : Value)
| sendNotify (serverId zoneId : JsString) (body : Value)
| exportZone (serverId zoneId : JsString)
| rectifyZone (serverId zoneId : JsString) (body : Value)
| listKeys (serverId zoneId : JsString)
| createKey (serverId zoneId : JsString) (keyData : Value)
| getKey (serverId zoneId : JsString) (keyId : Number)
| updateKey (serverId zoneId : JsString) (keyId : Number) (keyData : Value)
| deleteKey (serverId zoneId : JsString) (keyId : Number)
| listMetadata (serverId zoneId : JsString)
| createMetadata (serverId zoneId : JsString) (metadataEntries : Value)
| getMetadata (serverId zoneId metadataKind : JsString)
| updateMetadata (serverId zoneId metadataKind : JsString)
                 (metadataValues : list JsString)
| deleteMetadata (serverId zoneId metadataKind : JsString)
| listTSIGKeys (serverId : JsString)
| createTSIGKey (serverId : JsString) (keyData : Value)
| getTSIGKey (serverId tsigKeyId : JsString)
| updateTSIGKey (serverId tsigKeyId : JsString) (keyData : Value)
| deleteTSIGKey (serverId tsigKeyId : JsString)
| listAutoprimaries (serverId : JsString)
| addAutoprimary (serverId : JsString) (autoprimaryData : Value)
| deleteAutoprimary (serverId ip nameserver : JsString)
| searchData (serverId query : JsString) (maxResults : option Number)
             (objectType : option Searching.ObjectType)
| getStatistics (serverId : JsString) (options : option Statistics.Options)
| flushCache (serverId domain : JsString).

Definition invoke (i : Invocation) : Async Value :=
  match i with
  | listServers => Servers.listServers
  | getServer s => Servers.getServer s
  | listZones s => Zones.listZones s
  | getZone s z => Zones.getZone s z
  | createZone s d => Zones.createZone s d
  | deleteZone s z => Zones.deleteZone s z
  | updateZoneRRsets s z d => Zones.updateZoneRRsets s z d
  | modifyZone s z d => Zones.modifyZone s z d
  | retrieveSlaveZone s z b => Zones.retrieveSlaveZone s z b
  | sendNotify s z b => Zones.sendNotify s z b
  | exportZone s z => Zones.exportZone s z
  | rectifyZone s z b => Zones.rectifyZone s z b
  | listKeys s z => Cryptokeys.listKeys s z
  | createKey s z d => Cryptokeys.createKey s z d
  | getKey s z k => Cryptokeys.getKey s z k
  | updateKey s z k d => Cryptokeys.updateKey s z k d
  | deleteKey s z k => Cryptokeys.deleteKey s z k
  | listMetadata s z => Metadata.listMetadata s z
  | createMetadata s z e => Metadata.createMetadata s z e
  | getMetadata s z k => Metadata.getMetadata s z k
  | updateMetadata s z k v => Metadata.updateMetadata s z k v
  | deleteMetadata s z k => Metadata.deleteMetadata s z k
  | listTSIGKeys s => TSIGKeys.listTSIGKeys s
  | createTSIGKey s d => TSIGKeys.createTSIGKey s d
  | getTSIGKey s k => TSIGKeys.getTSIGKey s k
  | updateTSIGKey s k d => TSIGKeys.updateTSIGKey s k d
  | deleteTSIGKey s k => TSIGKeys.deleteTSIGKey s k
  | listAutoprimaries s => Autoprimaries.listAutoprimaries s
  | addAutoprimary s d => Autoprimaries.addAutoprimary s d
  | deleteAutoprimary s i n => Autoprimaries.deleteAutoprimary s i n
  | searchData s q m o => Searching.searchData s q m o
  | getStatistics s o => Statistics.getStatistics s o
  | flushCache s d => Cache.flushCache s d
  end.

(** Two stubs: one that fulfils every call with a given value, one that
    rejects every call with a given exception. *)
Definition resolving (v : Value) : Transport := fun _ _ => Fulfilled v.
Definition rejecting (e : Exception) : Transport := fun _ _ => Rejected e.

(** *** The documented shapes the methods are compared with *)

(** The body of a metadata update as the specification and the unit test
    of the module word it: the values wrapped in an object, under the key
    [metadata]. *)
Definition spec_updateMetadata_body (metadataValues : list JsString)
  : Value :=
  VObject [(js "metadata", VArray (map VString metadataValues))].

(** The path of the statistics of a server, before any query string. *)
Definition statistics_path (serverId : JsString) : JsString :=
  js "/servers/" ++ serverId ++ js "/statistics".

(** The operations on a zone: the server and the zone they are given, and
    what the path template of the operation appends after the zone id. *)
Definition zone_operation (i : Invocation)
  : option (JsString * JsString * JsString) :=
  match i with
  | getZone s z | deleteZone s z => Some (s, z, js "")
  | updateZoneRRsets s z _ | modifyZone s z _ => Some (s, z, js "")
  | retrieveSlaveZone s z _ => Some (s, z, js "/axfr-retrieve")
  | sendNotify s z _ => Some (s, z, js "/notify")
  | exportZone s z => Some (s, z, js "/export")
  | rectifyZone s z _ => Some (s, z, js "/rectify")
  | listKeys s z | createKey s z _ => Some (s, z, js "/cryptokeys")
  | getKey s z k | deleteKey s z k =>
    Some (s, z, js "/cryptokeys/" ++ Number_toString k)
  | updateKey s z k _ => Some (s, z, js "/cryptokeys/" ++ Number_toString k)
  | listMetadata s z | createMetadata s z _ => Some (s, z, js "/metadata")
  | getMetadata s z k | deleteMetadata s z k =>
    Some (s, z, js "/metadata/" ++ k)
  | updateMetadata s z k _ => Some (s, z, js "/metadata/" ++ k)
  | _ => None
  end.


(** The characters that separate the parts of a URL and the parameters of
    a query string: space, [#], [&], [/], [=] and [?]. *)
Definition delimiters : JsString := js " #&/=?".

(** What [Encode] writes for one octet of the UTF-8 form of the string:
    the octet itself when it is an unescaped character, its escape
    otherwise. *)
Definition uri_byte (b : N) : JsString :=
  if uriUnescaped b then [b] else percent_byte b.

Definition is_upper_hex (c : CodeUnit) : bool :=
  ((48 <=? c) && (c <=? 57)) || ((65 <=? c) && (c <=? 70)).

(** A text in which every ["%"] is followed by two upper-case hexadecimal
    digits. *)
Fixpoint well_escaped (s : JsString) : bool :=
  match s with
  | [] => true
  | c :: rest =>
    if c =? 37 then
      match rest with
      | a :: b :: rest' =>
        is_upper_hex a && is_upper_hex b && well_escaped rest'
      | _ => false
      end
    else well_escaped rest
  end.

(** The payload a method is given to send: the object argument of the
    creating and updating methods. *)
Definition payload_of (i : Invocation) : option Value :=
  match i with
  | createZone _ d | updateZoneRRsets _ _ d | modifyZone _ _ d
  | retrieveSlaveZone _ _ d | sendNotify _ _ d | rectifyZone _ _ d
  | createKey _ _ d | updateKey _ _ _ d | createMetadata _ _ d
  | createTSIGKey _ d | updateTSIGKey _ _ d | addAutoprimary _ d => Some d
  | _ => None
  end.

(** The arguments with which a method gets as far as its call of the
    transport: all of them, except that [flushCache] needs a domain that
    [encodeURIComponent] accepts. *)
Definition reaches_transport (i : Invocation) : bool :=
  match i with
  | flushCache _ domain => isWellFormed domain
  | _ => true
  end.

(* ================================================================= *)
(** ** Running a method against a stub *)

Lemma run_async_return_send (r : Request) (t : Transport) :
  run (async_return (send r)) t = ([(r, t [] r)], t [] r).
Proof.
  unfold run, async_return, bind, send, ret; simpl.
  destruct (t [] r); reflexivity.
Qed.

Lemma calls_async_return_send (r : Request) (t : Transport) :
  calls (async_return (send r)) t = [r].
Proof.
  unfold calls. rewrite run_async_return_send. reflexivity.
Qed.

Lemma outcome_async_return_send (r : Request) (t : Transport) :
  outcome (async_return (send r)) t = t [] r.
Proof.
  unfold outcome. rewrite run_async_return_send. reflexivity.
Qed.

(** Every method makes one call and settles the way that call did; the one
    other way out is [flushCache] on a domain [encodeURIComponent]
    refuses. *)
Lemma invoke_one_call (i : Invocation) (t : Transport) :
  (exists r, run (invoke i) t = ([(r, t [] r)], t [] r))
  \/ run (invoke i) t = ([], Rejected URIError).
Proof.
  destruct i; cbn [invoke];
    try (left; eexists; apply run_async_return_send).
  unfold Cache.flushCache.
  destruct (encodeURIComponent domain) as [encoded|].
  - left. eexists. apply run_async_return_send.
  - right. reflexivity.
Qed.

(* ================================================================= *)
(** ** The two encoders *)

(** Induction over a string two code units at a time, as the decoders of
    surrogate pairs recurse. *)
Lemma pairs_ind (P : JsString -> Prop) :
  P [] ->
  (forall c, P [c]) ->
  (forall c d s, P s -> P (d :: s) -> P (c :: d :: s)) ->
  forall s, P s.
Proof.
  intros Hnil Hone Hstep s.
  assert (H : P s /\ forall c, P (c :: s)).
  { induction s as [|d s [IHs IHc]].
    - split; [exact Hnil | exact Hone].
    - split; [apply IHc | intros c; apply Hstep; [exact IHs | apply IHc]]. }
  exact (proj1 H).
Qed.

Ltac bools :=
  repeat rewrite ?orb_true_iff, ?orb_false_iff, ?andb_true_iff,
    ?andb_false_iff, ?negb_true_iff, ?negb_false_iff, ?N.leb_le, ?N.leb_gt,
    ?N.ltb_lt, ?N.ltb_ge, ?N.eqb_eq, ?N.eqb_neq in *.

Lemma one_of_In (chars : string) (c : CodeUnit) :
  one_of chars c = true <-> In c (js chars).
Proof.
  unfold one_of. rewrite existsb_exists. split.
  - intros [x [Hin Heq]]. apply N.eqb_eq in Heq. subst. exact Hin.
  - intros Hin. exists c. split; [exact Hin | apply N.eqb_refl].
Qed.

Lemma is_alnum_ascii (c : CodeUnit) :
  is_alnum c = true -> 48 <= c <= 122.
Proof. unfold is_alnum. bools. lia. Qed.

Lemma urlencoded_safe_ascii (c : CodeUnit) :
  urlencoded_safe c = true -> 42 <= c <= 122.
Proof.
  unfold urlencoded_safe. rewrite orb_true_iff, one_of_In.
  intros [H|H]; [apply is_alnum_ascii in H; lia|].
  vm_compute in H. lia.
Qed.

Lemma uriUnescaped_ascii (c : CodeUnit) :
  uriUnescaped c = true -> 33 <= c <= 126.
Proof.
  unfold uriUnescaped. rewrite orb_true_iff, one_of_In.
  intros [H|H]; [apply is_alnum_ascii in H; lia|].
  vm_compute in H. lia.
Qed.

Lemma ascii_not_surrogate (c : CodeUnit) :
  c < 0x80 -> is_lead c = false /\ is_trail c = false.
Proof. unfold is_lead, is_trail. bools. lia. Qed.

(** A string of safe characters is its own serialization. *)
Lemma urlencoded_string_safe (s : JsString) :
  Forall (fun c => urlencoded_safe c = true) s -> urlencoded_string s = s.
Proof.
  unfold urlencoded_string.
  induction 1 as [|c s Hc Hs IH]; [reflexivity|].
  pose proof (urlencoded_safe_ascii c Hc) as Hr.
  destruct (ascii_not_surrogate c ltac:(lia)) as [Hl Ht].
  cbn [toUSVString]. rewrite Hl, Ht.
  cbn [flat_map]. unfold utf8_encode at 1.
  replace (c <? 0x80) with true by (symmetry; apply N.ltb_lt; lia).
  cbn [flat_map app]. unfold urlencoded_byte at 1.
  replace (c =? 0x20) with false by (symmetry; apply N.eqb_neq; lia).
  rewrite Hc. cbn [app]. f_equal. exact IH.
Qed.


(** The digits and the sign of an integer are safe characters. *)
Lemma Number_toString_safe (z : Z)
      (safe : (Z.abs z <=? MAX_SAFE_INTEGER)%Z = true) :
  Forall (fun c => urlencoded_safe c = true) (Number_toString (Integer z safe)).
Proof.
  unfold Number_toString.
  assert (H : forall d, Forall (fun c => urlencoded_safe c = true)
                               (js (NilEmpty.string_of_uint d))).
  { induction d; cbn; constructor; auto. }
  assert (H' : forall d, Forall (fun c => urlencoded_safe c = true)
                                (js (NilZero.string_of_uint d))).
  { intros d. destruct d; unfold NilZero.string_of_uint;
      [repeat constructor | apply H ..]. }
  destruct z as [|q|q]; unfold Z.to_int, NilZero.string_of_int.
  - apply H'.
  - apply H'.
  - change (js (String "-" (NilZero.string_of_uint (Pos.to_uint q))))
      with (45 :: js (NilZero.string_of_uint (Pos.to_uint q))).
    constructor; [reflexivity | apply H'].
Qed.

Lemma Encode_cons (unescapedSet : CodeUnit -> bool) (c : CodeUnit)
      (rest : JsString) :
  Encode unescapedSet (c :: rest) =
  if unescapedSet c then option_map (cons c) (Encode unescapedSet rest)
  else if is_lead c then
    match rest with
    | d :: rest' =>
      if is_trail d then
        option_map (app (flat_map percent_byte
                           (utf8_encode (pair_code_point c d))))
                   (Encode unescapedSet rest')
      else None
    | [] => None
    end
  else if is_trail c then None
  else option_map (app (flat_map percent_byte (utf8_encode c)))
                  (Encode unescapedSet rest).
Proof. reflexivity. Qed.

Lemma toUSVString_cons (c : CodeUnit) (rest : JsString) :
  toUSVString (c :: rest) =
  if is_lead c then
    match rest with
    | d :: rest' =>
      if is_trail d then pair_code_point c d :: toUSVString rest'
      else 0xFFFD :: toUSVString rest
    | [] => [0xFFFD]
    end
  else if is_trail c then 0xFFFD :: toUSVString rest
  else c :: toUSVString rest.
Proof. reflexivity. Qed.

Lemma isWellFormed_cons (c : CodeUnit) (rest : JsString) :
  isWellFormed (c :: rest) =
  if is_lead c then
    match rest with
    | d :: rest' => is_trail d && isWellFormed rest'
    | [] => false
    end
  else negb (is_trail c) && isWellFormed rest.
Proof. reflexivity. Qed.

Lemma hex_digit_alnum (n : N) : n < 16 -> is_alnum (hex_digit n) = true.
Proof.
  intros H. unfold hex_digit, is_alnum.
  destruct (n <? 10) eqn:E; bools; lia.
Qed.

Lemma percent_byte_chars (safe : CodeUnit -> bool) (b : N) :
  (forall c, is_alnum c = true -> safe c = true) ->
  b < 256 ->
  Forall (fun c => safe c = true \/ c = 37) (percent_byte b).
Proof.
  intros Hsafe Hb. unfold percent_byte.
  constructor; [right; reflexivity|].
  constructor; [|constructor; [|constructor]]; left;
    apply Hsafe, hex_digit_alnum.
  - apply N.Div0.div_lt_upper_bound. lia.
  - apply N.mod_lt. lia.
Qed.

Lemma utf8_encode_bytes (cp : N) :
  cp < 0x110000 -> Forall (fun b => b < 256) (utf8_encode cp).
Proof.
  intros H. unfold utf8_encode.
  assert (Hm : forall x, x mod 0x40 < 0x40) by (intros; apply N.mod_lt; lia).
  destruct (cp <? 0x80) eqn:E1; [bools; repeat constructor; lia|].
  destruct (cp <? 0x800) eqn:E2.
  { bools. repeat constructor.
    - assert (cp / 0x40 < 0x20)
        by (apply N.Div0.div_lt_upper_bound; lia). lia.
    - specialize (Hm cp). lia. }
  destruct (cp <? 0x10000) eqn:E3.
  { bools. repeat constructor.
    - assert (cp / 0x1000 < 0x10)
        by (apply N.Div0.div_lt_upper_bound; lia). lia.
    - specialize (Hm (cp / 0x40)). lia.
    - specialize (Hm cp). lia. }
  bools. repeat constructor.
  - assert (cp / 0x40000 < 0x5)
      by (apply N.Div0.div_lt_upper_bound; lia). lia.
  - specialize (Hm (cp / 0x1000)). lia.
  - specialize (Hm (cp / 0x40)). lia.
  - specialize (Hm cp). lia.
Qed.

Lemma pair_code_point_range (c d : CodeUnit) :
  is_lead c = true -> is_trail d = true -> pair_code_point c d < 0x110000.
Proof.
  unfold is_lead, is_trail, pair_code_point. bools. nia.
Qed.

Lemma escapes_chars (safe : CodeUnit -> bool) (cp : N) :
  (forall c, is_alnum c = true -> safe c = true) ->
  cp < 0x110000 ->
  Forall (fun c => safe c = true \/ c = 37)
         (flat_map percent_byte (utf8_encode cp)).
Proof.
  intros Hsafe Hcp. apply Forall_flat_map.
  eapply Forall_impl; [|apply utf8_encode_bytes; exact Hcp].
  intros b Hb. apply percent_byte_chars; assumption.
Qed.

Lemma toUSVString_scalars (s : JsString) :
  code_units s -> Forall (fun cp => cp < 0x110000) (toUSVString s).
Proof.
  unfold code_units. induction s as [|c|c d s IHs IHd] using pairs_ind;
    intros H.
  - constructor.
  - inversion_clear H. cbn.
    destruct (is_lead c); [repeat constructor; lia|].
    destruct (is_trail c); repeat constructor; lia.
  - pose proof H as H'. inversion_clear H as [|? ? Hc Hds].
    pose proof Hds as Hds'. inversion_clear Hds as [|? ? Hd Hs].
    rewrite toUSVString_cons.
    destruct (is_lead c) eqn:El.
    + destruct (is_trail d) eqn:Et.
      * constructor; [apply pair_code_point_range; assumption | auto].
      * constructor; [lia | apply IHd; assumption].
    + destruct (is_trail c); (constructor; [lia | apply IHd; assumption]).
Qed.

(** What a serialized value is made of: safe characters, ["+"] and the
    ["%"] of the escapes. *)
Lemma urlencoded_string_chars (s : JsString) :
  code_units s ->
  Forall (fun c => urlencoded_safe c = true \/ c = 43 \/ c = 37)
         (urlencoded_string s).
Proof.
  intros H. unfold urlencoded_string.
  apply Forall_flat_map, Forall_flat_map.
  eapply Forall_impl; [|apply toUSVString_scalars; exact H].
  intros cp Hcp.
  eapply Forall_impl; [|apply utf8_encode_bytes; exact Hcp].
  intros b Hb. unfold urlencoded_byte.
  destruct (b =? 0x20); [constructor; [auto | constructor]|].
  destruct (urlencoded_safe b) eqn:E; [constructor; [auto | constructor]|].
  eapply Forall_impl; [|apply (percent_byte_chars urlencoded_safe b)]; auto.
  - intros c [Hc|Hc]; auto.
  - intros c Hc. unfold urlencoded_safe. rewrite Hc. reflexivity.
Qed.

(** What an encoded component is made of: unescaped characters and the
    ["%"] of the escapes. *)
Lemma encodeURIComponent_chars (s : JsString) :
  code_units s ->
  forall encoded, encodeURIComponent s = Some encoded ->
  Forall (fun c => uriUnescaped c = true \/ c = 37) encoded.
Proof.
  assert (Hsafe : forall c, is_alnum c = true -> uriUnescaped c = true).
  { intros c Hc. unfold uriUnescaped. rewrite Hc. reflexivity. }
  unfold encodeURIComponent, code_units.
  induction s as [|c|c d s IHs IHd] using pairs_ind; intros H encoded He.
  - inversion He. constructor.
  - inversion_clear H. cbn in He.
    destruct (uriUnescaped c) eqn:Eu.
    { inversion He. repeat constructor; auto. }
    destruct (is_lead c); [discriminate|].
    destruct (is_trail c); [discriminate|].
    inversion He. rewrite app_nil_r. apply escapes_chars; auto. lia.
  - inversion_clear H as [|? ? Hc Hds].
    pose proof Hds as Hds'. inversion_clear Hds as [|? ? Hd Hs].
    rewrite Encode_cons in He.
    destruct (uriUnescaped c) eqn:Eu.
    { destruct (Encode uriUnescaped (d :: s)) as [r|] eqn:Er;
        [|discriminate].
      inversion He. constructor; [auto | apply IHd; auto]. }
    destruct (is_lead c) eqn:El.
    { destruct (is_trail d) eqn:Et; [|discriminate].
      destruct (Encode uriUnescaped s) as [r|] eqn:Er; [|discriminate].
      inversion He. apply Forall_app. split.
      - apply escapes_chars; auto. apply pair_code_point_range; assumption.
      - apply IHs; auto. }
    destruct (is_trail c); [discriminate|].
    destruct (Encode uriUnescaped (d :: s)) as [r|] eqn:Er; [|discriminate].
    inversion He. apply Forall_app. split.
    + apply escapes_chars; auto. lia.
    + apply IHd; auto.
Qed.

(** [encodeURIComponent] raises exactly on the strings that are not well
    formed. *)
Lemma encodeURIComponent_defined (s : JsString) :
  isWellFormed s = true -> exists encoded, encodeURIComponent s = Some encoded.
Proof.
  unfold encodeURIComponent.
  induction s as [|c|c d s IHs IHd] using pairs_ind; intros H.
  - eexists. reflexivity.
  - cbn in *. destruct (uriUnescaped c); [eexists; reflexivity|].
    destruct (is_lead c); [discriminate|].
    destruct (is_trail c); [discriminate|]. eexists. reflexivity.
  - rewrite Encode_cons. rewrite isWellFormed_cons in H.
    destruct (uriUnescaped c) eqn:Eu.
    { apply uriUnescaped_ascii in Eu.
      destruct (ascii_not_surrogate c ltac:(lia)) as [El Et].
      rewrite El, Et in H. cbn [negb andb] in H.
      destruct (IHd H) as [r Hr]. rewrite Hr. eexists. reflexivity. }
    destruct (is_lead c).
    { apply andb_true_iff in H. destruct H as [Ht Hs]. rewrite Ht.
      destruct (IHs Hs) as [r Hr]. rewrite Hr. eexists. reflexivity. }
    apply andb_true_iff in H. destruct H as [Ht Hs].
    apply negb_true_iff in Ht. rewrite Ht.
    destruct (IHd Hs) as [r Hr]. rewrite Hr. eexists. reflexivity.
Qed.

Lemma encodeURIComponent_undefined (s : JsString) :
  isWellFormed s = false -> encodeURIComponent s = None.
Proof.
  unfold encodeURIComponent.
  induction s as [|c|c d s IHs IHd] using pairs_ind; intros H.
  - discriminate.
  - cbn in *. destruct (uriUnescaped c) eqn:Eu.
    { apply uriUnescaped_ascii in Eu.
      destruct (ascii_not_surrogate c ltac:(lia)) as [El Et].
      rewrite El, Et in H. discriminate. }
    destruct (is_lead c); [reflexivity|].
    destruct (is_trail c); [reflexivity | discriminate].
  - rewrite Encode_cons. rewrite isWellFormed_cons in H.
    destruct (uriUnescaped c) eqn:Eu.
    { apply uriUnescaped_ascii in Eu.
      destruct (ascii_not_surrogate c ltac:(lia)) as [El Et].
      rewrite El, Et in H. cbn [negb andb] in H.
      rewrite (IHd H). reflexivity. }
    destruct (is_lead c).
    { destruct (is_trail d); [|reflexivity].
      cbn [andb] in H. rewrite (IHs H). reflexivity. }
    destruct (is_trail c); [reflexivity|].
    cbn [negb andb] in H. rewrite (IHd H). reflexivity.
Qed.

(** The query string of [searchData], written out. *)
Lemma searchData_query (query : JsString) (maxResults : Number)
      (objectType : Searching.ObjectType) :
  urlencoded_serialize
    [(js "q", query);
     (js "max", Number_toString maxResults);
     (js "object_type", Searching.ObjectType_string objectType)]
  = js "q=" ++ urlencoded_string query
    ++ js "&max=" ++ urlencoded_string (Number_toString maxResults)
    ++ js "&object_type=" ++ Searching.ObjectType_string objectType.
Proof.
  unfold urlencoded_serialize. cbn [fold_left].
  replace (urlencoded_string (js "q")) with (js "q") by reflexivity.
  replace (urlencoded_string (js "max")) with (js "max") by reflexivity.
  replace (urlencoded_string (js "object_type")) with (js "object_type")
    by reflexivity.
  replace (urlencoded_string (Searching.ObjectType_string objectType))
    with (Searching.ObjectType_string objectType)
    by (destruct objectType; reflexivity).
  change (js "q") with [113]. cbn [app].
  repeat rewrite <- app_assoc. reflexivity.
Qed.

(* ================================================================= *)
(** ** The calls the unit tests expect *)

Example test_getKey :
  calls (Cryptokeys.getKey (js "localhost") (js "example.org.")
           (Integer 123 eq_refl))
        (resolving VNull)
  = [mkRequest GET (js "/servers/localhost/zones/example.org./cryptokeys/123")
       None].
Proof. reflexivity. Qed.

Example test_getZone_trailing_dot :
  calls (Zones.getZone (js "localhost") (js "example.org.")) (resolving VNull)
  = [mkRequest GET (js "/servers/localhost/zones/example.org.") None].
Proof. reflexivity. Qed.

Example test_getTSIGKey :
  run (TSIGKeys.getTSIGKey (js "localhost") (js "mytsigkey."))
      (resolving (VString (js "actualKey==")))
  = ([(mkRequest GET (js "/servers/localhost/tsigkeys/mytsigkey.") None,
       Fulfilled (VString (js "actualKey==")))],
     Fulfilled (VString (js "actualKey=="))).
Proof. reflexivity. Qed.

Example test_deleteAutoprimary :
  calls (Autoprimaries.deleteAutoprimary (js "localhost") (js "192.0.2.1")
           (js "ns1.example.org"))
        (resolving VUndefined)
  = [mkRequest DELETE
       (js "/servers/localhost/autoprimaries/192.0.2.1/ns1.example.org")
       None].
Proof. reflexivity. Qed.

Example test_searchData_defaults :
  calls (Searching.searchData (js "localhost") (js "example*") None None)
        (resolving (VArray []))
  = [mkRequest GET
       (js "/servers/localhost/search-data?q=example*&max=100&object_type=all")
       None].
Proof. reflexivity. Qed.

Example test_getStatistics_both :
  calls (Statistics.getStatistics (js "localhost")
           (Some (Statistics.mkOptions (Some (js "cache-hits")) (Some false))))
        (resolving (VArray []))
  = [mkRequest GET
       (js "/servers/localhost/statistics?statistic=cache-hits&includerings=false")
       None].
Proof. reflexivity. Qed.

Example test_flushCache_rejected :
  run (Cache.flushCache (js "localhost") (js "example.com"))
      (rejecting (Thrown (VString (js "API request failed"))))
  = ([(mkRequest PUT (js "/servers/localhost/cache/flush?domain=example.com")
         (Some VNull),
       Rejected (Thrown (VString (js "API request failed"))))],
     Rejected (Thrown (VString (js "API request failed")))).
Proof. reflexivity. Qed.

Example test_encodeURIComponent :
  encodeURIComponent (js "a b&c=d/e?") = Some (js "a%20b%26c%3Dd%2Fe%3F")
  /\ encodeURIComponent [0x20AC] = Some (js "%E2%82%AC")
  /\ encodeURIComponent [0xD83D; 0xDE00] = Some (js "%F0%9F%98%80")
  /\ encodeURIComponent [0xDE00; 0xD83D] = None.
Proof. repeat split; reflexivity. Qed.

Example test_urlencoded_string :
  urlencoded_string (js "a b&c=d/e?~") = js "a+b%26c%3Dd%2Fe%3F%7E"
  /\ urlencoded_string [0x20AC] = js "%E2%82%AC"
  /\ urlencoded_string [0xDE00] = js "%EF%BF%BD".
Proof. repeat split; reflexivity. Qed.

(* ================================================================= *)
(** ** The transport verb and the body of each call *)

Lemma updateMetadata_request (serverId zoneId metadataKind : JsString)
      (metadataValues : list JsString) (t : Transport) :
  calls (Metadata.updateMetadata serverId zoneId metadataKind metadataValues)
        t
  = [mkRequest PUT
       (js "/servers/" ++ serverId ++ js "/zones/" ++ zoneId
        ++ js "/metadata/" ++ metadataKind)
       (Some (VArray (map VString metadataValues)))].
Proof. apply calls_async_return_send. Qed.

(** C1, at the input of the unit test of the module: [updateMetadata]
    hands [put] the array of values itself, which is not the object
    [{metadata: values}] the test and the specification ask for. *)
Theorem C1_updateMetadata_sends_bare_array :
  calls (Metadata.updateMetadata (js "localhost") (js "example.org.")
           (js "ALLOW-AXFR-FROM") [js "192.0.2.3"])
        (resolving VNull)
  = [mkRequest PUT
       (js "/servers/localhost/zones/example.org./metadata/ALLOW-AXFR-FROM")
       (Some (VArray [VString (js "192.0.2.3")]))]
  /\ VArray [VString (js "192.0.2.3")]
     <> spec_updateMetadata_body [js "192.0.2.3"].
Proof.
  split.
  - rewrite updateMetadata_request. reflexivity.
  - discriminate.
Qed.

(** C7: [updateZoneRRsets] makes one call, a [patch]; [modifyZone] one
    call, a [put]; [createZone] one call, a [post]; each with the body it
    was given, whatever the server, the zone and the body are. *)
Theorem C7_zone_verbs (serverId zoneId : JsString) (body : Value)
        (t : Transport) :
  calls (Zones.updateZoneRRsets serverId zoneId body) t
  = [mkRequest PATCH (js "/servers/" ++ serverId ++ js "/zones/" ++ zoneId)
       (Some body)]
  /\ calls (Zones.modifyZone serverId zoneId body) t
     = [mkRequest PUT (js "/servers/" ++ serverId ++ js "/zones/" ++ zoneId)
          (Some body)]
  /\ calls (Zones.createZone serverId body) t
     = [mkRequest POST (js "/servers/" ++ serverId ++ js "/zones")
          (Some body)].
Proof.
  repeat split; apply calls_async_return_send.
Qed.

(* ================================================================= *)
(** ** Errors and results pass through *)

Lemma invoke_reaches (i : Invocation) (t : Transport) :
  reaches_transport i = true ->
  exists r, run (invoke i) t = ([(r, t [] r)], t [] r).
Proof.
  intros H.
  destruct i; cbn [invoke]; try (eexists; apply run_async_return_send).
  cbn [reaches_transport] in H.
  destruct (encodeURIComponent_defined domain H) as [encoded He].
  unfold Cache.flushCache. rewrite He.
  eexists. apply run_async_return_send.
Qed.

(** C8: a method makes one call of the transport, and when the transport
    rejects that call with an exception the method is rejected with that
    same exception, nothing else being called or returned. *)
Theorem C8_rejection_propagates (i : Invocation) (t : Transport) :
  reaches_transport i = true ->
  exists r,
    calls (invoke i) t = [r]
    /\ forall e, t [] r = Rejected e ->
                 run (invoke i) t = ([(r, Rejected e)], Rejected e).
Proof.
  intros H. destruct (invoke_reaches i t H) as [r Hr].
  exists r. split.
  - unfold calls. rewrite Hr. reflexivity.
  - intros e He. rewrite Hr, He. reflexivity.
Qed.

Lemma C8_rejection_propagates_witness :
  reaches_transport (getZone (js "localhost") (js "example.org.")) = true
  /\ outcome (invoke (getZone (js "localhost") (js "example.org.")))
             (rejecting (Thrown (VString (js "API error"))))
     = Rejected (Thrown (VString (js "API error"))).
Proof.
  split; [reflexivity|].
  destruct (C8_rejection_propagates
              (getZone (js "localhost") (js "example.org."))
              (rejecting (Thrown (VString (js "API error")))) eq_refl)
    as (r & _ & H).
  unfold outcome.
  rewrite (H (Thrown (VString (js "API error"))) eq_refl). reflexivity.
Defined.

(** C9: a method makes one call of the transport, and when the transport
    fulfils that call with a value the method is fulfilled with that same
    value. *)
Theorem C9_result_unchanged (i : Invocation) (t : Transport) :
  reaches_transport i = true ->
  exists r,
    calls (invoke i) t = [r]
    /\ forall v, t [] r = Fulfilled v ->
                 run (invoke i) t = ([(r, Fulfilled v)], Fulfilled v).
Proof.
  intros H. destruct (invoke_reaches i t H) as [r Hr].
  exists r. split.
  - unfold calls. rewrite Hr. reflexivity.
  - intros v Hv. rewrite Hr, Hv. reflexivity.
Qed.

Lemma C9_result_unchanged_witness :
  reaches_transport (searchData (js "localhost") (js "nonexistent*")
                                None None) = true
  /\ outcome (invoke (searchData (js "localhost") (js "nonexistent*")
                                 None None))
             (resolving (VArray []))
     = Fulfilled (VArray []).
Proof.
  split; [reflexivity|].
  destruct (C9_result_unchanged
              (searchData (js "localhost") (js "nonexistent*") None None)
              (resolving (VArray [])) eq_refl)
    as (r & _ & H).
  unfold outcome. rewrite (H (VArray []) eq_refl). reflexivity.
Defined.

(* ================================================================= *)
(** ** Zone ids in the path *)

(** C5: an operation on a zone makes one call, and its path is
    ["/servers/"], the server id, ["/zones/"], the zone id as it was given,
    and what the operation appends. *)
Theorem C5_zone_id_verbatim (i : Invocation)
        (serverId zoneId suffix : JsString) (t : Transport) :
  zone_operation i = Some (serverId, zoneId, suffix) ->
  exists r,
    calls (invoke i) t = [r]
    /\ req_path r
       = js "/servers/" ++ serverId ++ js "/zones/" ++ zoneId ++ suffix.
Proof.
  intros H.
  destruct i; cbn [zone_operation] in H; try discriminate;
    inversion H; subst; clear H; cbn [invoke];
    (eexists; split; [apply calls_async_return_send|]);
    cbn [req_path]; rewrite ?app_nil_r; reflexivity.
Qed.

Lemma C5_zone_id_verbatim_witness :
  zone_operation (getMetadata (js "localhost") (js "example.org.")
                              (js "ALLOW-AXFR-FROM"))
  = Some (js "localhost", js "example.org.", js "/metadata/ALLOW-AXFR-FROM")
  /\ exists r,
      calls (invoke (getMetadata (js "localhost") (js "example.org.")
                                 (js "ALLOW-AXFR-FROM")))
            (resolving VNull) = [r]
      /\ req_path r
         = js "/servers/" ++ js "localhost" ++ js "/zones/"
           ++ js "example.org." ++ js "/metadata/ALLOW-AXFR-FROM".
Proof.
  split; [reflexivity|].
  apply (C5_zone_id_verbatim
           (getMetadata (js "localhost") (js "example.org.")
                        (js "ALLOW-AXFR-FROM"))).
  reflexivity.
Defined.

(* ================================================================= *)
(** ** Query strings *)

Lemma urlencoded_string_ascii (c : CodeUnit) (s : JsString) :
  c < 0x80 ->
  urlencoded_string (c :: s) = urlencoded_byte c ++ urlencoded_string s.
Proof.
  intros Hc. unfold urlencoded_string.
  destruct (ascii_not_surrogate c Hc) as [Hl Ht].
  rewrite toUSVString_cons, Hl, Ht. cbn [flat_map].
  unfold utf8_encode at 1.
  replace (c <? 0x80) with true by (symmetry; apply N.ltb_lt; lia).
  cbn [flat_map app]. reflexivity.
Qed.

Lemma encodeURIComponent_ascii (c : CodeUnit) (s : JsString) :
  c < 0x80 ->
  encodeURIComponent (c :: s)
  = option_map (app (if uriUnescaped c then [c] else percent_byte c))
               (encodeURIComponent s).
Proof.
  intros Hc. unfold encodeURIComponent.
  destruct (ascii_not_surrogate c Hc) as [Hl Ht].
  rewrite Encode_cons, Hl, Ht.
  destruct (uriUnescaped c); [reflexivity|].
  unfold utf8_encode.
  replace (c <? 0x80) with true by (symmetry; apply N.ltb_lt; lia).
  cbn [flat_map]. rewrite app_nil_r. reflexivity.
Qed.

Lemma searchData_request (serverId query : JsString)
      (maxResults : option Number)
      (objectType : option Searching.ObjectType) (t : Transport) :
  calls (Searching.searchData serverId query maxResults objectType) t
  = [mkRequest GET
       (js "/servers/" ++ serverId ++ js "/search-data?q="
        ++ urlencoded_string query
        ++ js "&max="
        ++ urlencoded_string
             (Number_toString
                (match maxResults with
                 | Some n => n
                 | None => Integer 100 eq_refl
                 end))
        ++ js "&object_type="
        ++ Searching.ObjectType_string
             (match objectType with Some o => o | None => Searching.all end))
       None].
Proof.
  unfold Searching.searchData, ApiClient.get. cbv zeta.
  rewrite searchData_query, calls_async_return_send. reflexivity.
Qed.

Lemma flushCache_request (serverId domain encoded : JsString)
      (t : Transport) :
  encodeURIComponent domain = Some encoded ->
  run (Cache.flushCache serverId domain) t
  = (let r := mkRequest PUT
                (js "/servers/" ++ serverId ++ js "/cache/flush?domain="
                 ++ encoded)
                (Some VNull) in
     ([(r, t [] r)], t [] r)).
Proof.
  intros H. unfold Cache.flushCache, ApiClient.put. rewrite H. cbv zeta.
  rewrite run_async_return_send. reflexivity.
Qed.

(** C4: [searchData] makes one [get]; its query string carries [q] with the
    serialized query, then [max] and [object_type], which are [100] and
    [all] when the arguments are left out and the given values otherwise:
    [max] is the number as [Number::toString] prints it, serialized as
    every value is, which for an integer up to 2^53 - 1 in magnitude is
    its decimal digits. *)
Theorem C4_searchData_parameters (serverId query : JsString)
        (t : Transport) :
  calls (Searching.searchData serverId query None None) t
  = [mkRequest GET
       (js "/servers/" ++ serverId ++ js "/search-data?q="
        ++ urlencoded_string query ++ js "&max=100&object_type=all")
       None]
  /\ (forall (maxResults : Number) (objectType : Searching.ObjectType),
         calls (Searching.searchData serverId query (Some maxResults)
                                     (Some objectType)) t
         = [mkRequest GET
              (js "/servers/" ++ serverId ++ js "/search-data?q="
               ++ urlencoded_string query
               ++ js "&max=" ++ urlencoded_string (Number_toString maxResults)
               ++ js "&object_type="
               ++ Searching.ObjectType_string objectType)
              None])
  /\ (forall (z : Z) (safe : (Z.abs z <=? MAX_SAFE_INTEGER)%Z = true)
             (objectType : Searching.ObjectType),
         calls (Searching.searchData serverId query (Some (Integer z safe))
                                     (Some objectType)) t
         = [mkRequest GET
              (js "/servers/" ++ serverId ++ js "/search-data?q="
               ++ urlencoded_string query
               ++ js "&max=" ++ js (NilZero.string_of_int (Z.to_int z))
               ++ js "&object_type="
               ++ Searching.ObjectType_string objectType)
              None])
  /\ (forall (maxResults : Number),
         calls (Searching.searchData serverId query (Some maxResults) None) t
         = [mkRequest GET
              (js "/servers/" ++ serverId ++ js "/search-data?q="
               ++ urlencoded_string query
               ++ js "&max=" ++ urlencoded_string (Number_toString maxResults)
               ++ js "&object_type=all")
              None])
  /\ (forall (objectType : Searching.ObjectType),
         calls (Searching.searchData serverId query None (Some objectType)) t
         = [mkRequest GET
              (js "/servers/" ++ serverId ++ js "/search-data?q="
               ++ urlencoded_string query
               ++ js "&max=100&object_type="
               ++ Searching.ObjectType_string objectType)
              None])
  /\ calls (Searching.searchData (js "localhost") (js "*.org")
              (Some (Integer 5 eq_refl)) (Some Searching.zone)) t
     = [mkRequest GET
          (js "/servers/localhost/search-data?q=*.org&max=5&object_type=zone")
          None]
  /\ calls (Searching.searchData (js "localhost") (js "*.org")
              (Some (OtherNumber "1e+21")) (Some Searching.zone)) t
     = [mkRequest GET
          (js "/servers/localhost/search-data?q=*.org&max=1e%2B21&object_type=zone")
          None].
Proof.
  split; [|split; [|split; [|split; [|split; [|split]]]]].
  - rewrite searchData_request. reflexivity.
  - intros maxResults objectType. apply searchData_request.
  - intros z safe objectType. rewrite searchData_request.
    rewrite (urlencoded_string_safe (Number_toString (Integer z safe)))
      by apply Number_toString_safe.
    reflexivity.
  - intros maxResults. apply searchData_request.
  - intros objectType. rewrite searchData_request. reflexivity.
  - rewrite searchData_request. reflexivity.
  - rewrite searchData_request. reflexivity.
Qed.

(** C3, on a domain that is well formed: [flushCache] makes one call, a
    [put] with the body [null], on the path ["/servers/"], the server id,
    ["/cache/flush?domain="] and the domain as [encodeURIComponent] encodes
    it; so ["example.com"] on ["localhost"] gives
    ["/servers/localhost/cache/flush?domain=example.com"]. *)
Theorem C3_flushCache_request (serverId domain : JsString) (t : Transport) :
  isWellFormed domain = true ->
  (exists encoded,
      encodeURIComponent domain = Some encoded
      /\ calls (Cache.flushCache serverId domain) t
         = [mkRequest PUT
              (js "/servers/" ++ serverId ++ js "/cache/flush?domain="
               ++ encoded)
              (Some VNull)])
  /\ calls (Cache.flushCache (js "localhost") (js "example.com")) t
     = [mkRequest PUT
          (js "/servers/localhost/cache/flush?domain=example.com")
          (Some VNull)].
Proof.
  intros Hwf. split.
  - destruct (encodeURIComponent_defined domain Hwf) as [encoded He].
    exists encoded. split; [exact He|].
    unfold calls. rewrite (flushCache_request _ _ _ _ He). reflexivity.
  - unfold calls.
    rewrite (flushCache_request _ _ (js "example.com"))
      by reflexivity.
    reflexivity.
Qed.

Lemma C3_flushCache_request_witness :
  isWellFormed (js "example.com") = true
  /\ calls (Cache.flushCache (js "localhost") (js "example.com"))
           (resolving VNull)
     = [mkRequest PUT
          (js "/servers/localhost/cache/flush?domain=example.com")
          (Some VNull)].
Proof.
  split; [reflexivity|].
  exact (proj2 (C3_flushCache_request (js "localhost") (js "example.com")
                  (resolving VNull) eq_refl)).
Defined.

(** C3 as it was stated fails on a domain with an unpaired surrogate:
    [encodeURIComponent] raises, no call is made and the method is rejected
    with the [URIError]. *)
Lemma C3_unpaired_surrogate_makes_no_call :
  calls (Cache.flushCache (js "localhost") [0xD800]) (resolving VNull) = []
  /\ outcome (Cache.flushCache (js "localhost") [0xD800]) (resolving VNull)
     = Rejected URIError.
Proof. split; reflexivity. Qed.

(** C2 as it was stated fails: ["*"] is left as it is by both encoders, and
    [searchData] writes a space as ["+"], not as an escape. *)
Lemma C2_star_is_not_percent_encoded :
  calls (Searching.searchData (js "localhost") (js "* a") None None)
        (resolving VNull)
  = [mkRequest GET
       (js "/servers/localhost/search-data?q=*+a&max=100&object_type=all")
       None]
  /\ calls (Cache.flushCache (js "localhost") (js "*.example.com"))
           (resolving VNull)
     = [mkRequest PUT
          (js "/servers/localhost/cache/flush?domain=*.example.com")
          (Some VNull)]
  /\ In 42 (js "/servers/localhost/search-data?q=*+a&max=100&object_type=all")
  /\ In 42 (js "/servers/localhost/cache/flush?domain=*.example.com").
Proof.
  split; [|split; [|split]].
  - rewrite searchData_request. reflexivity.
  - reflexivity.
  - vm_compute. tauto.
  - vm_compute. tauto.
Qed.

(** C2 as the code has it.  In the path of [searchData] the query stands
    as [URLSearchParams] serializes it: made of letters, digits,
    [* - . _], ["+"] and escapes only, a character below U+0080 being kept
    when it is one of the safe ones, written ["+"] when it is the space,
    and escaped otherwise.  In the path of [flushCache] the domain stands as
    [encodeURIComponent] encodes it: made of letters, digits,
    [- _ . ! ~ * ' ( )] and escapes only, a character below U+0080 being
    kept when it is one of those and escaped otherwise, the space as
    ["%20"]. *)
Theorem C2_query_values_encoded (serverId query domain encoded : JsString)
        (maxResults : option Number)
        (objectType : option Searching.ObjectType)
        (t : Transport) :
  code_units query ->
  code_units domain ->
  encodeURIComponent domain = Some encoded ->
  (exists rest,
      calls (Searching.searchData serverId query maxResults objectType) t
      = [mkRequest GET
           (js "/servers/" ++ serverId ++ js "/search-data?q="
            ++ urlencoded_string query ++ rest)
           None])
  /\ Forall (fun c => urlencoded_safe c = true \/ c = 43 \/ c = 37)
            (urlencoded_string query)
  /\ (forall c, c < 0x80 ->
         urlencoded_string (c :: query)
         = (if c =? 0x20 then js "+"
            else if urlencoded_safe c then [c] else percent_byte c)
           ++ urlencoded_string query)
  /\ calls (Cache.flushCache serverId domain) t
     = [mkRequest PUT
          (js "/servers/" ++ serverId ++ js "/cache/flush?domain="
           ++ encoded)
          (Some VNull)]
  /\ Forall (fun c => uriUnescaped c = true \/ c = 37) encoded
  /\ (forall c, c < 0x80 ->
         encodeURIComponent (c :: domain)
         = Some ((if uriUnescaped c then [c] else percent_byte c)
                 ++ encoded))
  /\ urlencoded_safe 42 = true
  /\ uriUnescaped 42 = true
  /\ percent_byte 0x20 = js "%20".
Proof.
  intros Hq Hd He.
  split; [|split; [|split; [|split; [|split; [|split]]]]].
  - eexists. apply searchData_request.
  - apply urlencoded_string_chars. exact Hq.
  - intros c Hc. apply urlencoded_string_ascii. exact Hc.
  - unfold calls. rewrite (flushCache_request _ _ _ _ He). reflexivity.
  - apply (encodeURIComponent_chars domain); assumption.
  - intros c Hc. rewrite encodeURIComponent_ascii by exact Hc.
    rewrite He. reflexivity.
  - repeat split; reflexivity.
Qed.

Lemma C2_query_values_encoded_witness :
  code_units (js "a b/*")
  /\ code_units (js "a b/*")
  /\ encodeURIComponent (js "a b/*") = Some (js "a%20b%2F*")
  /\ calls (Cache.flushCache (js "localhost") (js "a b/*")) (resolving VNull)
     = [mkRequest PUT
          (js "/servers/" ++ js "localhost" ++ js "/cache/flush?domain="
           ++ js "a%20b%2F*")
          (Some VNull)]
  /\ urlencoded_string (js "a b/*") = js "a+b%2F*".
Proof.
  assert (Hu : code_units (js "a b/*")).
  { unfold code_units. repeat constructor. }
  assert (He : encodeURIComponent (js "a b/*") = Some (js "a%20b%2F*"))
    by reflexivity.
  pose proof (C2_query_values_encoded (js "localhost") (js "a b/*")
                (js "a b/*") (js "a%20b%2F*") None None (resolving VNull)
                Hu Hu He) as H.
  split; [exact Hu|]. split; [exact Hu|]. split; [exact He|].
  split; [exact (proj1 (proj2 (proj2 (proj2 H))))|].
  reflexivity.
Defined.

(* ================================================================= *)
(** ** The query string of the statistics *)

(** C6 as it was stated fails when [statistic] is set to the empty string:
    the parameter is set, and the path has no query string. *)
Lemma C6_empty_statistic_is_omitted :
  Statistics.statistic (Statistics.mkOptions (Some (js "")) None) <> None
  /\ calls (Statistics.getStatistics (js "localhost")
              (Some (Statistics.mkOptions (Some (js "")) None)))
           (resolving VNull)
     = [mkRequest GET (js "/servers/localhost/statistics") None].
Proof. split; [discriminate | reflexivity]. Qed.

(** C6 as the code has it: [getStatistics] makes one [get] on
    ["/servers/"], the server id and ["/statistics"]; the query string is
    absent when [statistic] is undefined or empty and [includerings] is
    undefined, and otherwise it is ["?"] and the parameters that are there,
    [statistic] when it is a non-empty string and then [includerings] when
    it is defined, with ["&"] between them. *)
Theorem C6_getStatistics_query (serverId : JsString) (t : Transport) :
  calls (Statistics.getStatistics serverId None) t
  = [mkRequest GET (statistics_path serverId) None]
  /\ calls (Statistics.getStatistics serverId
              (Some (Statistics.mkOptions None None))) t
     = [mkRequest GET (statistics_path serverId) None]
  /\ calls (Statistics.getStatistics serverId
              (Some (Statistics.mkOptions (Some []) None))) t
     = [mkRequest GET (statistics_path serverId) None]
  /\ (forall c s,
         calls (Statistics.getStatistics serverId
                  (Some (Statistics.mkOptions (Some (c :: s)) None))) t
         = [mkRequest GET
              (statistics_path serverId ++ js "?statistic=" ++ c :: s)
              None])
  /\ (forall b,
         calls (Statistics.getStatistics serverId
                  (Some (Statistics.mkOptions None (Some b)))) t
         = [mkRequest GET
              (statistics_path serverId ++ js "?includerings="
               ++ Boolean_toString b)
              None])
  /\ (forall b,
         calls (Statistics.getStatistics serverId
                  (Some (Statistics.mkOptions (Some []) (Some b)))) t
         = [mkRequest GET
              (statistics_path serverId ++ js "?includerings="
               ++ Boolean_toString b)
              None])
  /\ (forall c s b,
         calls (Statistics.getStatistics serverId
                  (Some (Statistics.mkOptions (Some (c :: s)) (Some b)))) t
         = [mkRequest GET
              (statistics_path serverId ++ js "?statistic=" ++ (c :: s)
               ++ js "&includerings=" ++ Boolean_toString b)
              None]).
Proof.
  unfold statistics_path, Statistics.getStatistics, ApiClient.get.
  repeat split; intros; cbn -[js app calls async_return];
    rewrite calls_async_return_send; repeat rewrite <- app_assoc;
    try rewrite app_nil_r; reflexivity.
Qed.

(** C10: a [statistic] that is the empty string leaves the path as it is
    without [statistic]; an [includerings] that is [false] is written as
    ["includerings=false"], after ["?"] or after the [statistic] parameter
    and ["&"]; when [includerings] is undefined nothing is written for
    it. *)
Theorem C10_statistic_falsy_includerings_false (serverId : JsString)
        (t : Transport) :
  (forall includerings,
      calls (Statistics.getStatistics serverId
               (Some (Statistics.mkOptions (Some (js "")) includerings))) t
      = calls (Statistics.getStatistics serverId
                 (Some (Statistics.mkOptions None includerings))) t)
  /\ calls (Statistics.getStatistics serverId
              (Some (Statistics.mkOptions None (Some false)))) t
     = [mkRequest GET
          (js "/servers/" ++ serverId
           ++ js "/statistics?includerings=false")
          None]
  /\ (forall c s,
         calls (Statistics.getStatistics serverId
                  (Some (Statistics.mkOptions (Some (c :: s))
                                              (Some false)))) t
         = [mkRequest GET
              (js "/servers/" ++ serverId ++ js "/statistics?statistic="
               ++ (c :: s) ++ js "&includerings=false")
              None])
  /\ calls (Statistics.getStatistics serverId
              (Some (Statistics.mkOptions None None))) t
     = [mkRequest GET (js "/servers/" ++ serverId ++ js "/statistics") None]
  /\ (forall c s,
         calls (Statistics.getStatistics serverId
                  (Some (Statistics.mkOptions (Some (c :: s)) None))) t
         = [mkRequest GET
              (js "/servers/" ++ serverId ++ js "/statistics?statistic="
               ++ c :: s)
              None]).
Proof.
  unfold Statistics.getStatistics, ApiClient.get.
  repeat split; intros; cbn -[js app calls async_return];
    try rewrite !calls_async_return_send; repeat rewrite <- app_assoc;
    try rewrite app_nil_r; reflexivity.
Qed.

(* ================================================================= *)
(** ** What every method has in common *)

Ltac unfold_methods :=
  unfold Servers.listServers, Servers.getServer,
    Zones.listZones, Zones.getZone, Zones.createZone, Zones.deleteZone,
    Zones.updateZoneRRsets, Zones.modifyZone, Zones.retrieveSlaveZone,
    Zones.sendNotify, Zones.exportZone, Zones.rectifyZone,
    Cryptokeys.listKeys, Cryptokeys.createKey, Cryptokeys.getKey,
    Cryptokeys.updateKey, Cryptokeys.deleteKey,
    Metadata.listMetadata, Metadata.createMetadata, Metadata.getMetadata,
    Metadata.updateMetadata, Metadata.deleteMetadata,
    TSIGKeys.listTSIGKeys, TSIGKeys.createTSIGKey, TSIGKeys.getTSIGKey,
    TSIGKeys.updateTSIGKey, TSIGKeys.deleteTSIGKey,
    Autoprimaries.listAutoprimaries, Autoprimaries.addAutoprimary,
    Autoprimaries.deleteAutoprimary,
    Searching.searchData, Statistics.getStatistics,
    ApiClient.get, ApiClient.post, ApiClient.put, ApiClient.patch,
    ApiClient.delete in *;
  cbv zeta in *.

Lemma encodeURIComponent_None (s : JsString) :
  encodeURIComponent s = None -> isWellFormed s = false.
Proof.
  intros H. destruct (isWellFormed s) eqn:E; [|reflexivity].
  destruct (encodeURIComponent_defined s E) as [e He]. congruence.
Qed.

(** X1: a method makes exactly one call of the transport and settles the
    way that call settled; the one exception is [flushCache] on a domain
    with an unpaired surrogate, which makes no call and is rejected with
    the [URIError], whatever the transport would have answered. *)
Theorem X1_one_call_per_method (i : Invocation) (t : Transport) :
  (reaches_transport i = true
   /\ exists r, run (invoke i) t = ([(r, t [] r)], t [] r))
  \/ (exists serverId domain,
         i = flushCache serverId domain
         /\ isWellFormed domain = false
         /\ run (invoke i) t = ([], Rejected URIError)).
Proof.
  destruct i; cbn [invoke reaches_transport];
    try (left; split; [reflexivity|]; eexists; apply run_async_return_send).
  unfold Cache.flushCache.
  destruct (encodeURIComponent domain) as [encoded|] eqn:He.
  - left. split.
    + destruct (isWellFormed domain) eqn:Hwf; [reflexivity|].
      rewrite (encodeURIComponent_undefined domain Hwf) in He.
      discriminate He.
    + eexists. apply run_async_return_send.
  - right. exists serverId, domain.
    split; [reflexivity|]. split; [|reflexivity].
    apply encodeURIComponent_None. exact He.
Qed.



(* ================================================================= *)
(** ** What a value can and cannot do to the path *)


Lemma uriUnescaped_not_delimiter (c : CodeUnit) :
  uriUnescaped c = true \/ c = 37 -> c < 0x80 /\ ~ In c delimiters /\ c <> 43.
Proof.
  intros [H|H]; [|subst; split; [reflexivity|split; [vm_compute; intuition discriminate|discriminate]]].
  pose proof (uriUnescaped_ascii c H) as Hr.
  split; [lia|]. split.
  - intros Hin. vm_compute in Hin.
    repeat (destruct Hin as [<-|Hin]; [discriminate H|]). exact Hin.
  - intros ->. discriminate H.
Qed.


(** X4: whatever the domain, the part of the path [flushCache] writes
    after ["domain="] is ASCII and holds no space, [#], [&], [+], [/], [=]
    or [?]: a domain cannot add a parameter or change the path. *)
Theorem X4_flushCache_value_has_no_delimiter (serverId domain : JsString)
        (t : Transport) (r : Request) :
  code_units domain ->
  In r (calls (Cache.flushCache serverId domain) t) ->
  exists encoded,
    req_path r
    = js "/servers/" ++ serverId ++ js "/cache/flush?domain=" ++ encoded
    /\ Forall (fun c => c < 0x80 /\ ~ In c delimiters /\ c <> 43) encoded.
Proof.
  intros Hu H.
  destruct (encodeURIComponent domain) as [encoded|] eqn:He.
  - unfold calls in H. rewrite (flushCache_request _ _ _ _ He) in H.
    destruct H as [<-|[]]. exists encoded. split; [reflexivity|].
    eapply Forall_impl;
      [|apply (encodeURIComponent_chars domain Hu encoded He)].
    intros c Hc. apply uriUnescaped_not_delimiter. exact Hc.
  - unfold Cache.flushCache in H. rewrite He in H. destruct H.
Qed.

Lemma X4_flushCache_value_has_no_delimiter_witness :
  code_units (js "a&b=c d")
  /\ In (mkRequest PUT
           (js "/servers/localhost/cache/flush?domain=a%26b%3Dc%20d")
           (Some VNull))
        (calls (Cache.flushCache (js "localhost") (js "a&b=c d"))
               (resolving VNull))
  /\ exists encoded,
      js "/servers/localhost/cache/flush?domain=a%26b%3Dc%20d"
      = js "/servers/" ++ js "localhost" ++ js "/cache/flush?domain="
        ++ encoded
      /\ Forall (fun c => c < 0x80 /\ ~ In c delimiters /\ c <> 43) encoded.
Proof.
  assert (Hu : code_units (js "a&b=c d")).
  { unfold code_units. repeat constructor. }
  assert (H : In (mkRequest PUT
                    (js "/servers/localhost/cache/flush?domain=a%26b%3Dc%20d")
                    (Some VNull))
                 (calls (Cache.flushCache (js "localhost") (js "a&b=c d"))
                        (resolving VNull))).
  { left. reflexivity. }
  split; [exact Hu|]. split; [exact H|].
  exact (X4_flushCache_value_has_no_delimiter _ _ _ _ Hu H).
Defined.




(** X6: [getStatistics] writes [statistic] into the query string as it is
    given, so a [statistic] that ends in ["&includerings="] and a boolean
    sends the very call that the [statistic] before it sends together with
    that [includerings]. *)
Theorem X6_statistic_is_not_encoded (serverId : JsString) (c : CodeUnit)
        (s : JsString) (b : bool) (t : Transport) :
  calls (Statistics.getStatistics serverId
           (Some (Statistics.mkOptions
                    (Some ((c :: s) ++ js "&includerings="
                           ++ Boolean_toString b))
                    None))) t
  = calls (Statistics.getStatistics serverId
             (Some (Statistics.mkOptions (Some (c :: s)) (Some b)))) t.
Proof.
  unfold Statistics.getStatistics, ApiClient.get.
  cbn -[js app calls async_return].
  rewrite !calls_async_return_send.
  cbn [app]. repeat rewrite <- app_assoc. reflexivity.
Qed.

(** X7: the zone id goes into the path as it is, so [getZone] on a zone id
    that ends in what another reading operation appends makes the call of
    that operation: [getZone(s, z + "/export")] is the call of
    [exportZone(s, z)], and so on for the keys and the metadata. *)
Theorem X7_getZone_reaches_sub_resources (i : Invocation)
        (serverId zoneId suffix : JsString) (r : Request) (t : Transport) :
  zone_operation i = Some (serverId, zoneId, suffix) ->
  calls (invoke i) t = [r] ->
  req_verb r = GET ->
  calls (Zones.getZone serverId (zoneId ++ suffix)) t = [r].
Proof.
  intros H Hc Hv.
  destruct i; cbn [zone_operation] in H; try discriminate;
    inversion H; subst; clear H; cbn [invoke] in Hc; unfold_methods;
    rewrite calls_async_return_send in *;
    inversion Hc; subst r; clear Hc; cbn [req_verb] in Hv;
    try discriminate; rewrite ?app_nil_r; reflexivity.
Qed.

Lemma X7_getZone_reaches_sub_resources_witness :
  zone_operation (exportZone (js "localhost") (js "example.org."))
  = Some (js "localhost", js "example.org.", js "/export")
  /\ calls (invoke (exportZone (js "localhost") (js "example.org.")))
           (resolving VNull)
     = [mkRequest GET (js "/servers/localhost/zones/example.org./export") None]
  /\ calls (Zones.getZone (js "localhost") (js "example.org." ++ js "/export"))
           (resolving VNull)
     = [mkRequest GET (js "/servers/localhost/zones/example.org./export")
          None].
Proof.
  split; [reflexivity|]. split; [reflexivity|].
  apply (X7_getZone_reaches_sub_resources
           (exportZone (js "localhost") (js "example.org."))
           (js "localhost") (js "example.org.") (js "/export")); reflexivity.
Defined.

Lemma encodeURIComponent_unescaped (s : JsString) :
  Forall (fun c => uriUnescaped c = true) s -> encodeURIComponent s = Some s.
Proof.
  unfold encodeURIComponent.
  induction 1 as [|c s Hc Hs IH]; [reflexivity|].
  rewrite Encode_cons, Hc, IH. reflexivity.
Qed.

Lemma urlencoded_safe_uriUnescaped (c : CodeUnit) :
  urlencoded_safe c = true -> uriUnescaped c = true.
Proof.
  unfold urlencoded_safe, uriUnescaped.
  rewrite !orb_true_iff, !one_of_In.
  intros [H|H]; [left; exact H | right].
  vm_compute in H. vm_compute. tauto.
Qed.

(** X8: a name made of letters, digits and [* - . _] only (a DNS name in
    presentation form, the trailing dot and a wildcard label included) is
    written into the path unchanged, by [flushCache] as the domain and by
    [searchData] as the query. *)
Theorem X8_plain_names_unchanged (serverId name : JsString) (t : Transport) :
  Forall (fun c => urlencoded_safe c = true) name ->
  calls (Cache.flushCache serverId name) t
  = [mkRequest PUT
       (js "/servers/" ++ serverId ++ js "/cache/flush?domain=" ++ name)
       (Some VNull)]
  /\ calls (Searching.searchData serverId name None None) t
     = [mkRequest GET
          (js "/servers/" ++ serverId ++ js "/search-data?q=" ++ name
           ++ js "&max=100&object_type=all")
          None].
Proof.
  intros H. split.
  - assert (He : encodeURIComponent name = Some name).
    { apply encodeURIComponent_unescaped.
      eapply Forall_impl; [|exact H].
      intros c. apply urlencoded_safe_uriUnescaped. }
    unfold calls. rewrite (flushCache_request _ _ _ _ He). reflexivity.
  - rewrite searchData_request, (urlencoded_string_safe name H). reflexivity.
Qed.

Lemma X8_plain_names_unchanged_witness :
  Forall (fun c => urlencoded_safe c = true) (js "*.example.org.")
  /\ calls (Cache.flushCache (js "localhost") (js "*.example.org."))
           (resolving VNull)
     = [mkRequest PUT
          (js "/servers/" ++ js "localhost" ++ js "/cache/flush?domain="
           ++ js "*.example.org.")
          (Some VNull)].
Proof.
  assert (H : Forall (fun c => urlencoded_safe c = true)
                     (js "*.example.org.")).
  { repeat constructor. }
  split; [exact H|].
  exact (proj1 (X8_plain_names_unchanged (js "localhost")
                  (js "*.example.org.") (resolving VNull) H)).
Defined.

(* ================================================================= *)
(** ** The two encoders side by side *)

Lemma urlencoded_string_scalar (c : CodeUnit) (s : JsString) :
  is_lead c = false -> is_trail c = false ->
  urlencoded_string (c :: s)
  = flat_map urlencoded_byte (utf8_encode c) ++ urlencoded_string s.
Proof.
  intros Hl Ht. unfold urlencoded_string.
  rewrite toUSVString_cons, Hl, Ht. cbn [flat_map].
  apply flat_map_app.
Qed.

Lemma urlencoded_string_pair (c d : CodeUnit) (s : JsString) :
  is_lead c = true -> is_trail d = true ->
  urlencoded_string (c :: d :: s)
  = flat_map urlencoded_byte (utf8_encode (pair_code_point c d))
    ++ urlencoded_string s.
Proof.
  intros Hl Ht. unfold urlencoded_string.
  rewrite toUSVString_cons, Hl, Ht. cbn [flat_map].
  apply flat_map_app.
Qed.

Lemma utf8_encode_high_bytes (cp : N) :
  0x80 <= cp -> Forall (fun b => 0x80 <= b) (utf8_encode cp).
Proof.
  intros H. unfold utf8_encode.
  replace (cp <? 0x80) with false by (symmetry; apply N.ltb_ge; exact H).
  destruct (cp <? 0x800); [|destruct (cp <? 0x10000)];
    repeat (apply Forall_cons; [cbv beta; apply N.le_add_r
                                          || (etransitivity;
                                              [|apply N.le_add_r];
                                              discriminate)|]);
    apply Forall_nil.
Qed.

Lemma uriUnescaped_high (c : CodeUnit) : 0x80 <= c -> uriUnescaped c = false.
Proof.
  intros H. destruct (uriUnescaped c) eqn:E; [|reflexivity].
  apply uriUnescaped_ascii in E. lia.
Qed.

Lemma urlencoded_safe_high (c : CodeUnit) :
  0x80 <= c -> urlencoded_safe c = false.
Proof.
  intros H. destruct (urlencoded_safe c) eqn:E; [|reflexivity].
  apply urlencoded_safe_ascii in E. lia.
Qed.

(** Away from the space, a code point that [encodeURIComponent] escapes is
    escaped the same way by the serializer. *)
Lemma escapes_agree (cp : N) :
  urlencoded_safe cp = false -> cp <> 0x20 ->
  flat_map urlencoded_byte (utf8_encode cp)
  = flat_map percent_byte (utf8_encode cp).
Proof.
  intros Hs Hsp.
  assert (H : Forall (fun b => urlencoded_safe b = false /\ b <> 0x20)
                     (utf8_encode cp)).
  { destruct (N.lt_ge_cases cp 0x80) as [Hlt|Hge].
    - unfold utf8_encode.
      replace (cp <? 0x80) with true by (symmetry; apply N.ltb_lt; exact Hlt).
      repeat constructor; assumption.
    - eapply Forall_impl; [|apply utf8_encode_high_bytes; exact Hge].
      intros b Hb. cbv beta in Hb.
      split; [apply urlencoded_safe_high; exact Hb | lia]. }
  induction H as [|b bs [Hb1 Hb2] _ IH]; [reflexivity|].
  cbn [flat_map]. rewrite IH. f_equal.
  unfold urlencoded_byte. rewrite Hb1.
  replace (b =? 0x20) with false by (symmetry; apply N.eqb_neq; exact Hb2).
  reflexivity.
Qed.

Lemma safe_when_unescaped (c : CodeUnit) :
  ~ In c (js " !~'()") -> uriUnescaped c = urlencoded_safe c.
Proof.
  intros Hn. unfold uriUnescaped, urlencoded_safe.
  destruct (is_alnum c); [reflexivity|]. cbn [orb].
  destruct (one_of "*-._" c) eqn:E1.
  - apply one_of_In in E1. apply one_of_In.
    vm_compute in E1. vm_compute. tauto.
  - destruct (one_of "-_.!~*'()" c) eqn:E2; [|reflexivity].
    apply one_of_In in E2. exfalso.
    assert (E1' : ~ In c (js "*-._")).
    { intros Hin. apply one_of_In in Hin. congruence. }
    vm_compute in E2, E1', Hn. tauto.
Qed.

Lemma encoders_agree (s : JsString) :
  isWellFormed s = true ->
  Forall (fun c => ~ In c (js " !~'()")) s ->
  encodeURIComponent s = Some (urlencoded_string s).
Proof.
  unfold encodeURIComponent.
  assert (Hsp : forall c, ~ In c (js " !~'()") -> c <> 0x20).
  { intros c Hn ->. apply Hn. vm_compute. tauto. }
  assert (Hone : forall c rest,
             ~ In c (js " !~'()") ->
             is_lead c = false -> is_trail c = false ->
             Encode uriUnescaped rest = Some (urlencoded_string rest) ->
             Encode uriUnescaped (c :: rest)
             = Some (urlencoded_string (c :: rest))).
  { intros c rest Hn Hl Ht IH.
    rewrite Encode_cons, Hl, Ht, IH, (urlencoded_string_scalar c rest Hl Ht).
    rewrite (safe_when_unescaped c Hn).
    destruct (urlencoded_safe c) eqn:Es.
    - pose proof (urlencoded_safe_ascii c Es) as Hr.
      unfold utf8_encode.
      replace (c <? 0x80) with true by (symmetry; apply N.ltb_lt; lia).
      cbn [flat_map app]. unfold urlencoded_byte. rewrite Es.
      replace (c =? 0x20) with false by (symmetry; apply N.eqb_neq; lia).
      reflexivity.
    - rewrite (escapes_agree c Es (Hsp c Hn)). reflexivity. }
  induction s as [|c|c d s IHs IHd] using pairs_ind; intros Hwf Hf.
  - reflexivity.
  - inversion_clear Hf as [|? ? Hc _].
    rewrite isWellFormed_cons in Hwf.
    destruct (is_lead c) eqn:El; [discriminate|].
    destruct (is_trail c) eqn:Et; [discriminate|].
    apply Hone; auto.
  - inversion_clear Hf as [|? ? Hc Hds].
    rewrite isWellFormed_cons in Hwf.
    destruct (is_lead c) eqn:El.
    + apply andb_true_iff in Hwf. destruct Hwf as [Ht Hs].
      inversion_clear Hds as [|? ? Hd Hss].
      rewrite Encode_cons, El, Ht, (IHs Hs Hss),
        (urlencoded_string_pair c d s El Ht).
      assert (Hp : 0x80 <= pair_code_point c d)
        by (unfold pair_code_point; lia).
      rewrite uriUnescaped_high
        by (unfold is_lead in El; bools; lia).
      rewrite (escapes_agree (pair_code_point c d))
        by (try apply urlencoded_safe_high; lia).
      reflexivity.
    + destruct (is_trail c) eqn:Et; [discriminate|].
      apply Hone; auto.
Qed.

(** X9: on a well-formed value without space, [!], [~], ['], [(] or [)]
    the two encoders write the same text: [flushCache] on it as the domain
    and [searchData] on it as the query put the same encoded value into
    their paths. *)
Theorem X9_encoders_agree (serverId value : JsString) (t : Transport) :
  isWellFormed value = true ->
  Forall (fun c => ~ In c (js " !~'()")) value ->
  calls (Cache.flushCache serverId value) t
  = [mkRequest PUT
       (js "/servers/" ++ serverId ++ js "/cache/flush?domain="
        ++ urlencoded_string value)
       (Some VNull)]
  /\ calls (Searching.searchData serverId value None None) t
     = [mkRequest GET
          (js "/servers/" ++ serverId ++ js "/search-data?q="
           ++ urlencoded_string value ++ js "&max=100&object_type=all")
          None].
Proof.
  intros Hwf Hf. split.
  - unfold calls.
    rewrite (flushCache_request _ _ _ _ (encoders_agree value Hwf Hf)).
    reflexivity.
  - rewrite searchData_request. reflexivity.
Qed.

Lemma X9_encoders_agree_witness :
  isWellFormed (js "a/b&c") = true
  /\ Forall (fun c => ~ In c (js " !~'()")) (js "a/b&c")
  /\ calls (Cache.flushCache (js "localhost") (js "a/b&c")) (resolving VNull)
     = [mkRequest PUT
          (js "/servers/" ++ js "localhost" ++ js "/cache/flush?domain="
           ++ urlencoded_string (js "a/b&c"))
          (Some VNull)].
Proof.
  assert (Hf : Forall (fun c => ~ In c (js " !~'()")) (js "a/b&c")).
  { repeat constructor; vm_compute; intuition discriminate. }
  split; [reflexivity|]. split; [exact Hf|].
  exact (proj1 (X9_encoders_agree (js "localhost") (js "a/b&c")
                  (resolving VNull) eq_refl Hf)).
Defined.

Lemma toUSVString_app (pre s : JsString) :
  isWellFormed pre = true ->
  toUSVString (pre ++ s) = toUSVString pre ++ toUSVString s.
Proof.
  induction pre as [|c|c d pre IHs IHd] using pairs_ind; intros Hwf.
  - reflexivity.
  - rewrite isWellFormed_cons in Hwf.
    destruct (is_lead c) eqn:El; [discriminate|].
    destruct (is_trail c) eqn:Et; [discriminate|].
    cbn [app]. rewrite !toUSVString_cons, El, Et. reflexivity.
  - rewrite isWellFormed_cons in Hwf.
    change ((c :: d :: pre) ++ s) with (c :: d :: (pre ++ s)).
    rewrite (toUSVString_cons c (d :: pre ++ s)),
      (toUSVString_cons c (d :: pre)).
    destruct (is_lead c) eqn:El.
    + apply andb_true_iff in Hwf. destruct Hwf as [Ht Hs].
      rewrite Ht, (IHs Hs). reflexivity.
    + destruct (is_trail c) eqn:Et; [discriminate|].
      change (d :: pre ++ s) with ((d :: pre) ++ s).
      rewrite (IHd Hwf). reflexivity.
Qed.

(** The serialization of a query goes piece by piece wherever the first
    piece is well formed. *)
Lemma urlencoded_string_app (pre s : JsString) :
  isWellFormed pre = true ->
  urlencoded_string (pre ++ s) = urlencoded_string pre ++ urlencoded_string s.
Proof.
  intros Hwf. unfold urlencoded_string.
  rewrite (toUSVString_app pre s Hwf), !flat_map_app. reflexivity.
Qed.

Lemma toUSVString_unpaired (c : CodeUnit) (rest : JsString) :
  (if is_lead c
   then match rest with d :: _ => is_trail d = false | [] => True end
   else is_trail c = true) ->
  toUSVString (c :: rest) = toUSVString (0xFFFD :: rest).
Proof.
  intros H. rewrite !toUSVString_cons.
  change (is_lead 0xFFFD) with false. change (is_trail 0xFFFD) with false.
  destruct (is_lead c).
  - destruct rest as [|d rest']; [reflexivity|]. rewrite H. reflexivity.
  - rewrite H. reflexivity.
Qed.

(** X10: [searchData] does not refuse a query with an unpaired surrogate:
    after a well-formed beginning, a trail surrogate, or a lead surrogate
    that no trail surrogate follows, is sent as U+FFFD would be, so the
    call is the one the query with U+FFFD in that place makes. *)
Theorem X10_searchData_replaces_unpaired_surrogate
        (serverId pre : JsString) (c : CodeUnit) (rest : JsString)
        (maxResults : option Number)
        (objectType : option Searching.ObjectType)
        (t : Transport) :
  isWellFormed pre = true ->
  (if is_lead c
   then match rest with d :: _ => is_trail d = false | [] => True end
   else is_trail c = true) ->
  calls (Searching.searchData serverId (pre ++ c :: rest) maxResults
                              objectType) t
  = calls (Searching.searchData serverId (pre ++ 0xFFFD :: rest) maxResults
                                objectType) t
  /\ urlencoded_string (pre ++ c :: rest)
     = urlencoded_string pre ++ js "%EF%BF%BD" ++ urlencoded_string rest.
Proof.
  intros Hwf Hc.
  assert (E : urlencoded_string (pre ++ c :: rest)
              = urlencoded_string (pre ++ 0xFFFD :: rest)).
  { rewrite !urlencoded_string_app by exact Hwf. f_equal.
    unfold urlencoded_string. rewrite (toUSVString_unpaired c rest Hc).
    reflexivity. }
  split.
  - rewrite !searchData_request, E. reflexivity.
  - rewrite E, urlencoded_string_app by exact Hwf.
    apply (f_equal (app (urlencoded_string pre))).
    exact (urlencoded_string_scalar 0xFFFD rest eq_refl eq_refl).
Qed.

Lemma X10_searchData_replaces_unpaired_surrogate_witness :
  isWellFormed (js "a") = true
  /\ calls (Searching.searchData (js "localhost") (js "a" ++ 0xDC00 :: js "b")
              None None) (resolving (VArray []))
     = [mkRequest GET
          (js "/servers/localhost/search-data?q=a%EF%BF%BDb&max=100&object_type=all")
          None].
Proof.
  split; [reflexivity|].
  refine (eq_trans
            (proj1 (X10_searchData_replaces_unpaired_surrogate
                      (js "localhost") (js "a") 0xDC00 (js "b") None None
                      (resolving (VArray [])) eq_refl eq_refl)) _).
  reflexivity.
Defined.

(* ================================================================= *)
(** ** Key ids *)






(* ================================================================= *)
(** ** The encoders lose nothing *)

(** A well-formed string begins with a code unit that is no surrogate, or
    with a surrogate pair. *)
Lemma wellFormed_head (s : JsString) :
  isWellFormed s = true ->
  s = []
  \/ (exists c rest,
         s = c :: rest /\ is_lead c = false /\ is_trail c = false
         /\ isWellFormed rest = true
         /\ toUSVString s = c :: toUSVString rest)
  \/ (exists c d rest,
         s = c :: d :: rest /\ is_lead c = true /\ is_trail d = true
         /\ isWellFormed rest = true
         /\ toUSVString s = pair_code_point c d :: toUSVString rest).
Proof.
  intros H. destruct s as [|c rest]; [left; reflexivity | right].
  rewrite isWellFormed_cons in H. rewrite toUSVString_cons.
  destruct (is_lead c) eqn:El.
  - right. destruct rest as [|d rest']; [discriminate|].
    apply andb_true_iff in H. destruct H as [Ht Hr]. rewrite Ht.
    exists c, d, rest'. auto.
  - left. apply andb_true_iff in H. destruct H as [Ht Hr].
    apply negb_true_iff in Ht. rewrite Ht.
    exists c, rest. auto.
Qed.

Lemma toUSVString_inj (s1 s2 : JsString) :
  isWellFormed s1 = true -> isWellFormed s2 = true ->
  code_units s1 -> code_units s2 ->
  toUSVString s1 = toUSVString s2 -> s1 = s2.
Proof.
  remember (toUSVString s1) as l eqn:El.
  revert s1 s2 El.
  induction l as [|cp l IH]; intros s1 s2 E1 Hw1 Hw2 Hu1 Hu2 E2.
  - destruct (wellFormed_head s1 Hw1)
      as [->|[(c & r & -> & _ & _ & _ & H)|(c & d & r & -> & _ & _ & _ & H)]];
      try congruence.
    destruct (wellFormed_head s2 Hw2)
      as [->|[(c & r & -> & _ & _ & _ & H)|(c & d & r & -> & _ & _ & _ & H)]];
      congruence.
  - destruct (wellFormed_head s1 Hw1)
      as [->|[(c1 & r1 & -> & Hl1 & Ht1 & Hr1 & H1)
             |(c1 & d1 & r1 & -> & Hl1 & Ht1 & Hr1 & H1)]];
      [discriminate| |];
    destruct (wellFormed_head s2 Hw2)
      as [->|[(c2 & r2 & -> & Hl2 & Ht2 & Hr2 & H2)
             |(c2 & d2 & r2 & -> & Hl2 & Ht2 & Hr2 & H2)]];
      try discriminate;
      rewrite H1 in E1; rewrite H2 in E2;
      injection E1 as Ecp1 El1; injection E2 as Ecp2 El2.
    + inversion_clear Hu1. inversion_clear Hu2.
      f_equal; [congruence | apply IH; auto].
    + exfalso. inversion_clear Hu1 as [|? ? Hc1 _].
      unfold pair_code_point in Ecp2. lia.
    + exfalso. inversion_clear Hu2 as [|? ? Hc2 _].
      unfold pair_code_point in Ecp1. lia.
    + inversion_clear Hu1 as [|? ? _ Hu1']. inversion_clear Hu1'.
      inversion_clear Hu2 as [|? ? _ Hu2']. inversion_clear Hu2'.
      assert (Hp : pair_code_point c1 d1 = pair_code_point c2 d2)
        by congruence.
      unfold pair_code_point, is_lead, is_trail in *. bools.
      assert (c1 = c2 /\ d1 = d2) as [-> ->] by lia.
      do 2 f_equal. apply IH; auto.
Qed.

(** The octets of a code point, by the number of octets. *)
Lemma utf8_encode_cases (cp : N) :
  cp < 0x110000 ->
  (cp < 0x80 /\ utf8_encode cp = [cp])
  \/ (exists b1 b2,
         utf8_encode cp = [b1; b2]
         /\ 0xC0 <= b1 < 0xE0 /\ 0x80 <= b2 < 0xC0
         /\ 0x80 <= cp
         /\ cp = 0x40 * (b1 - 0xC0) + (b2 - 0x80))
  \/ (exists b1 b2 b3,
         utf8_encode cp = [b1; b2; b3]
         /\ 0xE0 <= b1 < 0xF0 /\ 0x80 <= b2 < 0xC0 /\ 0x80 <= b3 < 0xC0
         /\ 0x80 <= cp
         /\ cp = 0x1000 * (b1 - 0xE0) + 0x40 * (b2 - 0x80) + (b3 - 0x80))
  \/ (exists b1 b2 b3 b4,
         utf8_encode cp = [b1; b2; b3; b4]
         /\ 0xF0 <= b1 < 0xF5 /\ 0x80 <= b2 < 0xC0 /\ 0x80 <= b3 < 0xC0
         /\ 0x80 <= b4 < 0xC0
         /\ 0x80 <= cp
         /\ cp = 0x40000 * (b1 - 0xF0) + 0x1000 * (b2 - 0x80)
                 + 0x40 * (b3 - 0x80) + (b4 - 0x80)).
Proof.
  intros H. unfold utf8_encode.
  destruct (cp <? 0x80) eqn:E1; [left; bools; auto|].
  right. destruct (cp <? 0x800) eqn:E2.
  { left. eexists _, _. split; [reflexivity|]. bools.
    repeat split; zify; Z.to_euclidean_division_equations; lia. }
  right. destruct (cp <? 0x10000) eqn:E3.
  { left. eexists _, _, _. split; [reflexivity|]. bools.
    repeat split; zify; Z.to_euclidean_division_equations; lia. }
  right. eexists _, _, _, _. split; [reflexivity|]. bools.
  repeat split; zify; Z.to_euclidean_division_equations; lia.
Qed.

(** UTF-8 is a prefix code. *)
Lemma utf8_encode_prefix (a b : N) (X Y : list N) :
  a < 0x110000 -> b < 0x110000 ->
  utf8_encode a ++ X = utf8_encode b ++ Y -> a = b /\ X = Y.
Proof.
  intros Ha Hb H.
  destruct (utf8_encode_cases a Ha)
    as [[Ha1 Ea]|[(a1 & a2 & Ea & ? & ? & ? & Ha')
       |[(a1 & a2 & a3 & Ea & ? & ? & ? & ? & Ha')
        |(a1 & a2 & a3 & a4 & Ea & ? & ? & ? & ? & ? & Ha')]]];
  destruct (utf8_encode_cases b Hb)
    as [[Hb1 Eb]|[(b1 & b2 & Eb & ? & ? & ? & Hb')
       |[(b1 & b2 & b3 & Eb & ? & ? & ? & ? & Hb')
        |(b1 & b2 & b3 & b4 & Eb & ? & ? & ? & ? & ? & Hb')]]];
  rewrite Ea, Eb in H; cbn [app] in H;
    injection H; intros; subst; split; try reflexivity; lia.
Qed.

Lemma flat_map_prefix_inj {A B} (P : A -> Prop) (f : A -> list B) :
  (forall a, P a -> f a <> []) ->
  (forall a b X Y, P a -> P b -> f a ++ X = f b ++ Y -> a = b /\ X = Y) ->
  forall l1 l2,
    Forall P l1 -> Forall P l2 -> flat_map f l1 = flat_map f l2 -> l1 = l2.
Proof.
  intros Hne Hpre.
  induction l1 as [|a l1 IH]; intros [|b l2] H1 H2 E; cbn [flat_map] in E.
  - reflexivity.
  - exfalso. inversion_clear H2 as [|? ? Hb _].
    symmetry in E. apply app_eq_nil in E. exact (Hne b Hb (proj1 E)).
  - exfalso. inversion_clear H1 as [|? ? Ha _].
    apply app_eq_nil in E. exact (Hne a Ha (proj1 E)).
  - inversion_clear H1 as [|? ? Ha H1']. inversion_clear H2 as [|? ? Hb H2'].
    destruct (Hpre a b _ _ Ha Hb E) as [-> E'].
    f_equal. apply IH; assumption.
Qed.

Lemma hex_digit_inj (x y : N) :
  x < 16 -> y < 16 -> hex_digit x = hex_digit y -> x = y.
Proof.
  unfold hex_digit. intros Hx Hy.
  destruct (x <? 10) eqn:Ex; destruct (y <? 10) eqn:Ey; bools; lia.
Qed.

Lemma percent_byte_prefix (x y : N) (X Y : JsString) :
  x < 256 -> y < 256 ->
  percent_byte x ++ X = percent_byte y ++ Y -> x = y /\ X = Y.
Proof.
  intros Hx Hy H. unfold percent_byte in H. cbn [app] in H.
  injection H as H1 H2 H3. split; [|exact H3].
  apply hex_digit_inj in H1;
    [|apply N.Div0.div_lt_upper_bound; lia ..].
  apply hex_digit_inj in H2; [|apply N.mod_lt; lia ..].
  rewrite (N.div_mod x 16), (N.div_mod y 16) by lia. congruence.
Qed.

Lemma uri_byte_prefix (x y : N) (X Y : JsString) :
  x < 256 -> y < 256 ->
  uri_byte x ++ X = uri_byte y ++ Y -> x = y /\ X = Y.
Proof.
  intros Hx Hy. unfold uri_byte.
  destruct (uriUnescaped x) eqn:Ex; destruct (uriUnescaped y) eqn:Ey.
  - cbn [app]. intros H. injection H as -> ->. auto.
  - unfold percent_byte. cbn [app]. intros H. injection H as -> _.
    discriminate Ex.
  - unfold percent_byte. cbn [app]. intros H. injection H as <- _.
    discriminate Ey.
  - apply percent_byte_prefix; assumption.
Qed.

Lemma urlencoded_byte_prefix (x y : N) (X Y : JsString) :
  x < 256 -> y < 256 ->
  urlencoded_byte x ++ X = urlencoded_byte y ++ Y -> x = y /\ X = Y.
Proof.
  intros Hx Hy. unfold urlencoded_byte.
  destruct (x =? 0x20) eqn:Ex0; destruct (y =? 0x20) eqn:Ey0;
    [| destruct (urlencoded_safe y) eqn:Ey
     | destruct (urlencoded_safe x) eqn:Ex
     | destruct (urlencoded_safe x) eqn:Ex;
       destruct (urlencoded_safe y) eqn:Ey ];
    unfold percent_byte; cbn [app]; intros H;
    try (injection H as H1 H2; subst;
         first [ discriminate Ex | discriminate Ey | discriminate H1 ]).
  - injection H as ->. bools. subst. auto.
  - injection H as -> ->. auto.
  - apply (percent_byte_prefix x y X Y Hx Hy). exact H.
Qed.

Lemma uri_byte_nonempty (b : N) : uri_byte b <> [].
Proof. unfold uri_byte, percent_byte. destruct (uriUnescaped b); discriminate. Qed.

Lemma urlencoded_byte_nonempty (b : N) : urlencoded_byte b <> [].
Proof.
  unfold urlencoded_byte, percent_byte.
  destruct (b =? 0x20); [|destruct (urlencoded_safe b)]; discriminate.
Qed.

Lemma utf8_encode_nonempty (cp : N) : utf8_encode cp <> [].
Proof.
  unfold utf8_encode.
  destruct (cp <? 0x80); [|destruct (cp <? 0x800);
                            [|destruct (cp <? 0x10000)]]; discriminate.
Qed.

Lemma utf8_bytes_of_string (s : JsString) :
  code_units s ->
  Forall (fun b => b < 256) (flat_map utf8_encode (toUSVString s)).
Proof.
  intros H. apply Forall_flat_map.
  eapply Forall_impl; [|apply toUSVString_scalars; exact H].
  intros cp Hcp. apply utf8_encode_bytes. exact Hcp.
Qed.

(** The octets of one code point, as [Encode] writes them. *)
Lemma uri_bytes_of_code_point (cp : N) :
  flat_map uri_byte (utf8_encode cp)
  = if uriUnescaped cp then [cp]
    else flat_map percent_byte (utf8_encode cp).
Proof.
  destruct (N.lt_ge_cases cp 0x80) as [Hlt|Hge].
  - unfold utf8_encode.
    replace (cp <? 0x80) with true by (symmetry; apply N.ltb_lt; exact Hlt).
    cbn [flat_map]. unfold uri_byte.
    destruct (uriUnescaped cp); reflexivity.
  - rewrite (uriUnescaped_high cp Hge).
    pose proof (utf8_encode_high_bytes cp Hge) as H.
    induction H as [|b bs Hb _ IH]; [reflexivity|].
    cbn [flat_map]. rewrite IH. f_equal.
    unfold uri_byte. rewrite (uriUnescaped_high b Hb). reflexivity.
Qed.

(** [encodeURIComponent] on a well-formed string, octet by octet. *)
Lemma encodeURIComponent_bytes (s : JsString) :
  isWellFormed s = true ->
  encodeURIComponent s
  = Some (flat_map uri_byte (flat_map utf8_encode (toUSVString s))).
Proof.
  unfold encodeURIComponent.
  assert (Hone : forall c rest,
             is_lead c = false -> is_trail c = false ->
             Encode uriUnescaped rest
             = Some (flat_map uri_byte
                       (flat_map utf8_encode (toUSVString rest))) ->
             Encode uriUnescaped (c :: rest)
             = Some (flat_map uri_byte
                       (flat_map utf8_encode (toUSVString (c :: rest))))).
  { intros c rest Hl Ht IH.
    rewrite Encode_cons, toUSVString_cons, Hl, Ht, IH.
    cbn [flat_map]. rewrite flat_map_app, uri_bytes_of_code_point.
    destruct (uriUnescaped c); reflexivity. }
  induction s as [|c|c d s IHs IHd] using pairs_ind; intros Hwf.
  - reflexivity.
  - rewrite isWellFormed_cons in Hwf.
    destruct (is_lead c) eqn:El; [discriminate|].
    destruct (is_trail c) eqn:Et; [discriminate|].
    apply Hone; auto.
  - rewrite isWellFormed_cons in Hwf.
    destruct (is_lead c) eqn:El.
    + apply andb_true_iff in Hwf. destruct Hwf as [Ht Hs].
      rewrite Encode_cons, toUSVString_cons, El, Ht, (IHs Hs).
      cbn [flat_map]. rewrite flat_map_app, uri_bytes_of_code_point.
      rewrite (uriUnescaped_high c)
        by (unfold is_lead in El; bools; lia).
      rewrite (uriUnescaped_high (pair_code_point c d))
        by (unfold pair_code_point; lia).
      reflexivity.
    + destruct (is_trail c) eqn:Et; [discriminate|].
      apply Hone; auto.
Qed.

Lemma encodeURIComponent_inj (s1 s2 : JsString) :
  isWellFormed s1 = true -> isWellFormed s2 = true ->
  code_units s1 -> code_units s2 ->
  encodeURIComponent s1 = encodeURIComponent s2 -> s1 = s2.
Proof.
  intros Hw1 Hw2 Hu1 Hu2 H.
  rewrite !encodeURIComponent_bytes in H by assumption.
  injection H as H.
  apply toUSVString_inj; try assumption.
  apply (flat_map_prefix_inj (fun cp => cp < 0x110000) utf8_encode);
    [ intros; apply utf8_encode_nonempty
    | intros a b X Y; apply utf8_encode_prefix
    | apply toUSVString_scalars; assumption ..
    | ].
  apply (flat_map_prefix_inj (fun b => b < 256) uri_byte);
    [ intros; apply uri_byte_nonempty
    | intros a b X Y; apply uri_byte_prefix
    | apply utf8_bytes_of_string; assumption ..
    | exact H ].
Qed.

Lemma urlencoded_string_inj (s1 s2 : JsString) :
  isWellFormed s1 = true -> isWellFormed s2 = true ->
  code_units s1 -> code_units s2 ->
  urlencoded_string s1 = urlencoded_string s2 -> s1 = s2.
Proof.
  intros Hw1 Hw2 Hu1 Hu2 H. unfold urlencoded_string in H.
  apply toUSVString_inj; try assumption.
  apply (flat_map_prefix_inj (fun cp => cp < 0x110000) utf8_encode);
    [ intros; apply utf8_encode_nonempty
    | intros a b X Y; apply utf8_encode_prefix
    | apply toUSVString_scalars; assumption ..
    | ].
  apply (flat_map_prefix_inj (fun b => b < 256) urlencoded_byte);
    [ intros; apply urlencoded_byte_nonempty
    | intros a b X Y; apply urlencoded_byte_prefix
    | apply utf8_bytes_of_string; assumption ..
    | exact H ].
Qed.

(** X12: two different well-formed values never give the same call:
    [flushCache] on two well-formed domains makes the same call only when
    the domains are the same, and so does [searchData] on two well-formed
    queries with the same other arguments. *)
Theorem X12_encoded_values_are_distinct (serverId v1 v2 : JsString)
        (maxResults : option Number)
        (objectType : option Searching.ObjectType)
        (t : Transport) :
  isWellFormed v1 = true -> isWellFormed v2 = true ->
  code_units v1 -> code_units v2 ->
  (calls (Cache.flushCache serverId v1) t
   = calls (Cache.flushCache serverId v2) t -> v1 = v2)
  /\ (calls (Searching.searchData serverId v1 maxResults objectType) t
      = calls (Searching.searchData serverId v2 maxResults objectType) t ->
      v1 = v2).
Proof.
  intros Hw1 Hw2 Hu1 Hu2. split; intros H.
  - destruct (encodeURIComponent_defined v1 Hw1) as [e1 He1].
    destruct (encodeURIComponent_defined v2 Hw2) as [e2 He2].
    unfold calls in H.
    rewrite (flushCache_request _ _ _ _ He1),
      (flushCache_request _ _ _ _ He2) in H.
    cbv zeta in H. cbn [fst map] in H.
    assert (Hp := f_equal (fun l => req_path (hd (mkRequest GET [] None) l))
                          H).
    cbn [hd req_path] in Hp. repeat apply app_inv_head in Hp.
    apply encodeURIComponent_inj; try assumption. congruence.
  - rewrite !searchData_request in H.
    assert (Hp := f_equal (fun l => req_path (hd (mkRequest GET [] None) l))
                          H).
    cbn [hd req_path] in Hp. do 3 apply app_inv_head in Hp.
    apply app_inv_tail in Hp.
    apply urlencoded_string_inj; assumption.
Qed.

Lemma X12_encoded_values_are_distinct_witness :
  isWellFormed (js "a b") = true /\ isWellFormed (js "a+b") = true
  /\ code_units (js "a b") /\ code_units (js "a+b")
  /\ calls (Searching.searchData (js "localhost") (js "a b") None None)
           (resolving (VArray []))
     <> calls (Searching.searchData (js "localhost") (js "a+b") None None)
              (resolving (VArray [])).
Proof.
  assert (H1 : code_units (js "a b")) by (unfold code_units; repeat constructor).
  assert (H2 : code_units (js "a+b")) by (unfold code_units; repeat constructor).
  split; [reflexivity|]. split; [reflexivity|].
  split; [exact H1|]. split; [exact H2|].
  intros H.
  pose proof (proj2 (X12_encoded_values_are_distinct
                       (js "localhost") (js "a b") (js "a+b") None None
                       (resolving (VArray [])) eq_refl eq_refl H1 H2) H) as E.
  discriminate E.
Defined.

Lemma is_upper_hex_digit (n : N) : n < 16 -> is_upper_hex (hex_digit n) = true.
Proof.
  intros H. unfold hex_digit, is_upper_hex.
  destruct (n <? 10) eqn:E; bools; lia.
Qed.

Lemma well_escaped_percent_byte (b : N) (rest : JsString) :
  b < 256 -> well_escaped (percent_byte b ++ rest) = well_escaped rest.
Proof.
  intros H. unfold percent_byte. cbn [app well_escaped].
  change (37 =? 37) with true. cbv iota.
  rewrite !is_upper_hex_digit;
    [reflexivity | apply N.mod_lt; lia
     | apply N.Div0.div_lt_upper_bound; lia].
Qed.

Lemma well_escaped_raw (c : CodeUnit) (rest : JsString) :
  c <> 37 -> well_escaped (c :: rest) = well_escaped rest.
Proof.
  intros H. cbn [well_escaped].
  replace (c =? 37) with false by (symmetry; apply N.eqb_neq; exact H).
  reflexivity.
Qed.

Lemma well_escaped_uri_bytes (bytes : list N) :
  Forall (fun b => b < 256) bytes ->
  well_escaped (flat_map uri_byte bytes) = true.
Proof.
  induction 1 as [|b bs Hb _ IH]; [reflexivity|].
  cbn [flat_map]. unfold uri_byte.
  destruct (uriUnescaped b) eqn:E.
  - cbn [app]. rewrite well_escaped_raw; [exact IH|].
    intros ->. discriminate E.
  - rewrite well_escaped_percent_byte by exact Hb. exact IH.
Qed.

Lemma well_escaped_urlencoded_bytes (bytes : list N) :
  Forall (fun b => b < 256) bytes ->
  well_escaped (flat_map urlencoded_byte bytes) = true.
Proof.
  induction 1 as [|b bs Hb _ IH]; [reflexivity|].
  cbn [flat_map]. unfold urlencoded_byte.
  destruct (b =? 0x20); [exact IH|].
  destruct (urlencoded_safe b) eqn:E.
  - cbn [app]. rewrite well_escaped_raw; [exact IH|].
    intros ->. discriminate E.
  - rewrite well_escaped_percent_byte by exact Hb. exact IH.
Qed.

(** X13: in what [flushCache] writes for the domain and in what
    [searchData] writes for the query, every ["%"] is followed by two
    upper-case hexadecimal digits. *)
Theorem X13_escapes_are_well_formed (serverId value : JsString)
        (maxResults : option Number)
        (objectType : option Searching.ObjectType)
        (t : Transport) :
  code_units value ->
  (forall r, In r (calls (Cache.flushCache serverId value) t) ->
             exists encoded,
               req_path r
               = js "/servers/" ++ serverId ++ js "/cache/flush?domain="
                 ++ encoded
               /\ well_escaped encoded = true)
  /\ calls (Searching.searchData serverId value maxResults objectType) t
     = [mkRequest GET
          (js "/servers/" ++ serverId ++ js "/search-data?q="
           ++ urlencoded_string value
           ++ js "&max="
           ++ urlencoded_string
                (Number_toString
                   (match maxResults with
                    | Some n => n
                    | None => Integer 100 eq_refl
                    end))
           ++ js "&object_type="
           ++ Searching.ObjectType_string
                (match objectType with
                 | Some o => o
                 | None => Searching.all
                 end))
          None]
  /\ well_escaped (urlencoded_string value) = true.
Proof.
  intros Hu. split; [|split].
  - intros r H.
    destruct (isWellFormed value) eqn:Hwf.
    + pose proof (encodeURIComponent_bytes value Hwf) as He.
      unfold calls in H. rewrite (flushCache_request _ _ _ _ He) in H.
      destruct H as [<-|[]]. eexists. split; [reflexivity|].
      apply well_escaped_uri_bytes, utf8_bytes_of_string. exact Hu.
    + unfold Cache.flushCache in H.
      rewrite (encodeURIComponent_undefined value Hwf) in H. destruct H.
  - apply searchData_request.
  - apply well_escaped_urlencoded_bytes, utf8_bytes_of_string. exact Hu.
Qed.

Lemma X13_escapes_are_well_formed_witness :
  code_units (js "50% off")
  /\ calls (Searching.searchData (js "localhost") (js "50% off") None None)
           (resolving (VArray []))
     = [mkRequest GET
          (js "/servers/localhost/search-data?q=50%25+off&max=100&object_type=all")
          None]
  /\ well_escaped (js "50%25+off") = true.
Proof.
  assert (Hu : code_units (js "50% off"))
    by (unfold code_units; repeat constructor).
  destruct (X13_escapes_are_well_formed (js "localhost") (js "50% off")
              None None (resolving (VArray [])) Hu) as (_ & Hc & Hw).
  split; [exact Hu|]. split; [exact Hc | exact Hw].
Defined.

(* ================================================================= *)
(** ** Payloads *)

(** X14: a method that is given an object to send (the zone, key,
    metadata, TSIG key or autoprimary data, or the body of a zone action)
    makes one call, and the body of that call is that very value. *)
Theorem X14_payload_is_the_body (i : Invocation) (t : Transport)
        (payload : Value) :
  payload_of i = Some payload ->
  exists r, calls (invoke i) t = [r] /\ req_body r = Some payload.
Proof.
  intros Hp.
  destruct i; cbn [payload_of] in Hp; try discriminate;
    injection Hp as <-; cbn [invoke]; unfold_methods;
    rewrite calls_async_return_send; eexists; split; reflexivity.
Qed.

Lemma X14_payload_is_the_body_witness :
  payload_of (createZone (js "localhost")
                (VObject [(js "name", VString (js "test.org."));
                          (js "kind", VString (js "Master"))]))
  = Some (VObject [(js "name", VString (js "test.org."));
                   (js "kind", VString (js "Master"))])
  /\ exists r,
      calls (invoke (createZone (js "localhost")
                       (VObject [(js "name", VString (js "test.org."));
                                 (js "kind", VString (js "Master"))])))
            (resolving VNull) = [r]
      /\ req_body r
         = Some (VObject [(js "name", VString (js "test.org."));
                          (js "kind", VString (js "Master"))]).
Proof.
  split; [reflexivity|].
  exact (X14_payload_is_the_body
           (createZone (js "localhost")
              (VObject [(js "name", VString (js "test.org."));
                        (js "kind", VString (js "Master"))]))
           (resolving VNull) _ eq_refl).
Defined.
